(** * The form-and-result view of the ad marketing engine

    A shallow embedding of [src/frontend/legacy-app.tsx]: the React component
    [App], its asynchronous submit handler [handleSubmit], the inline
    [CreativeDisplay] component and the element tree [App] returns.

    The file is organised in layers:
    - [Js]: the JavaScript values the component handles (numbers with their
      string conversion, truthiness, property reads, [JSON.stringify]);
    - [Async]: a free monad for an [async] function body: state setters,
      [await], [throw] and [try]/[catch]/[finally];
    - [View]: the component state, the event handlers and their runs against
      an endpoint;
    - [Render]: the element tree of [App] and what React DOM puts on the
      page for it;
    - [Mock]: sample endpoints;
    - the properties of the submit flow. *)

From Stdlib Require Import ZArith QArith Qabs Qround List String Ascii Bool Lia.
From Stdlib Require Import DecimalString.
Import ListNotations.
Local Open Scope string_scope.
#[local] Set Warnings "-register-all".

(* ===================================================================== *)
(** * JavaScript values *)
(* ===================================================================== *)

Module Js.

(** ** Numbers

    A JavaScript number is an IEEE 754 binary64 value.  A finite non-zero
    value is [(-1)^neg * m * 2^e]; it is in canonical form when it has the 53
    bit significand of a normal number or the least exponent of a subnormal
    one. *)

Inductive Number : Type :=
| NaN
| Infinity (neg : bool)
| Zero (neg : bool)
| Finite (neg : bool) (m : positive) (e : Z).

Definition canonical (m : positive) (e : Z) : bool :=
  ((2 ^ 52 <=? Zpos m) && (Zpos m <? 2 ^ 53) && (-1074 <=? e) && (e <=? 971)
   || (Zpos m <? 2 ^ 52) && (e =? -1074))%Z.

Definition binary64 (x : Number) : bool :=
  match x with
  | Finite _ m e => canonical m e
  | _ => true
  end.

Definition pow2 (e : Z) : Q := Qpower (2 # 1) e.
Definition pow10 (e : Z) : Q := Qpower (10 # 1) e.

(** The mathematical value of a finite number. *)
Definition magnitude (m : positive) (e : Z) : Q := Qred ((Zpos m # 1) * pow2 e).

(** [floor_log2 a] for [a > 0]: the [l] with [2^l <= a < 2^(l+1)]. *)
Definition floor_log2 (a : Q) : Z :=
  let l0 := (Z.log2 (Qnum a) - Z.log2 (Zpos (Qden a)))%Z in
  if Qle_bool (pow2 l0) a then l0 else (l0 - 1)%Z.

Definition Qlt_bool (a b : Q) : bool := negb (Qle_bool b a).

(** Round to the nearest integer, ties to even. *)
Definition round_half_even (t : Q) : Z :=
  let fl := Qfloor t in
  let r := Qred (t - inject_Z fl) in
  if Qlt_bool r (1 # 2) then fl
  else if Qlt_bool (1 # 2) r then (fl + 1)%Z
  else if Z.even fl then fl else (fl + 1)%Z.

(** The Number value of a real: round to nearest binary64, ties to even. *)
Definition Number_of_Q (q : Q) : Number :=
  let neg := Qlt_bool q 0 in
  let a := Qred (Qabs q) in
  if Qeq_bool a 0 then Zero false
  else
    let e := Z.max (floor_log2 a - 52) (-1074) in
    let m := round_half_even (a / pow2 e) in
    let '(m, e) := if (m =? 2 ^ 53)%Z then ((2 ^ 52)%Z, (e + 1)%Z) else (m, e) in
    match m with
    | Zpos p => if (971 <? e)%Z then Infinity neg else Finite neg p e
    | _ => Zero neg
    end.

(** The decimal literal [s * 10^p] as a Number, the way [JSON.parse] and the
    JavaScript reader produce it. *)
Definition Number_of_decimal (s : Z) (p : Z) : Number :=
  Number_of_Q (inject_Z s * pow10 p).

(** *** Number::toString (radix 10)

    ECMAScript picks integers [n], [k], [s] with [k >= 1],
    [10^(k-1) <= s < 10^k], the Number value of [s * 10^(n-k)] equal to the
    number, and [k] as small as possible; among several [s] the one closest
    to the number, the even one on a tie. *)

(** [n0] with [10^(n0-1) <= v < 10^n0], searched upwards from [lo]. *)
Fixpoint decimal_exponent_from (fuel : nat) (lo : Z) (v : Q) : Z :=
  match fuel with
  | O => lo
  | S fuel' =>
      if Qlt_bool v (pow10 lo) then lo
      else decimal_exponent_from fuel' (lo + 1)%Z v
  end.

Definition decimal_exponent (v : Q) : Z :=
  let guess := (floor_log2 v * 30103 / 100000 - 1)%Z in
  decimal_exponent_from 4 guess v.

Definition Qdist (a b : Q) : Q := Qred (Qabs (a - b)).

(** The digits [s] of length [k] for the positive number [x] of value [v],
    if some [s * 10^(n0-k)] reads back as [x]; [(s, n)] on success. *)
Definition shortest_at (x : Number) (v : Q) (n0 : Z) (k : Z) : option (Z * Z) :=
  let p := (n0 - k)%Z in
  let lo := Qfloor (v / pow10 p) in
  let hi := (lo + 1)%Z in
  let reads s := match x, Number_of_Q (inject_Z s * pow10 p) with
                 | Finite _ m e, Finite _ m' e' => Pos.eqb m m' && Z.eqb e e'
                 | _, _ => false
                 end in
  let norm s := if (s =? 10 ^ k)%Z then ((10 ^ (k - 1))%Z, (n0 + 1)%Z) else (s, n0) in
  match reads lo, reads hi with
  | true, false => Some (norm lo)
  | false, true => Some (norm hi)
  | false, false => None
  | true, true =>
      let dlo := Qdist v (inject_Z lo * pow10 p) in
      let dhi := Qdist v (inject_Z hi * pow10 p) in
      if Qlt_bool dlo dhi then Some (norm lo)
      else if Qlt_bool dhi dlo then Some (norm hi)
      else if Z.even lo then Some (norm lo) else Some (norm hi)
  end.

Fixpoint shortest_from (fuel : nat) (x : Number) (v : Q) (n0 : Z) (k : Z) : Z * Z :=
  match fuel with
  | O => (Qfloor (v / pow10 (n0 - k)), n0)
  | S fuel' =>
      match shortest_at x v n0 k with
      | Some r => r
      | None => shortest_from fuel' x v n0 (k + 1)%Z
      end
  end.

(** The decimal digits of a non-negative integer. *)
Definition digits (z : Z) : string := NilZero.string_of_uint (N.to_uint (Z.to_N z)).

Fixpoint zeros (n : nat) : string :=
  match n with
  | O => ""
  | S n' => String "0" (zeros n')
  end.

Definition take (n : nat) (s : string) : string := substring 0 n s.
Definition drop (n : nat) (s : string) : string := substring n (String.length s - n) s.

Definition format_decimal (s : Z) (n : Z) : string :=
  let ds := digits s in
  let k := Z.of_nat (String.length ds) in
  if ((-5 <=? n) && (n <=? 21))%Z then
    if (k <=? n)%Z then ds ++ zeros (Z.to_nat (n - k))
    else if (0 <? n)%Z then take (Z.to_nat n) ds ++ "." ++ drop (Z.to_nat n) ds
    else "0." ++ zeros (Z.to_nat (- n)) ++ ds
  else
    let c := if (0 <=? n - 1)%Z then "+" else "-" in
    let ex := digits (Z.abs (n - 1)) in
    if (k =? 1)%Z then ds ++ "e" ++ c ++ ex
    else take 1 ds ++ "." ++ drop 1 ds ++ "e" ++ c ++ ex.

Definition Number_toString (x : Number) : string :=
  match x with
  | NaN => "NaN"
  | Zero _ => "0"
  | Infinity neg => if neg then "-Infinity" else "Infinity"
  | Finite neg m e =>
      let v := magnitude m e in
      let '(s, n) := shortest_from 17 x v (decimal_exponent v) 1 in
      (if neg then "-" else "") ++ format_decimal s n
  end.

(** ** Values

    The values that reach the component: what [response.json()] resolves to,
    the [message] of an exception, and [undefined] for a property that is
    not there.  An object keeps its properties in insertion order. *)

Inductive JsValue : Type :=
| JUndefined
| JNull
| JBool (b : bool)
| JNum (n : Number)
| JStr (s : string)
| JArr (items : list JsValue)
| JObj (fields : list (string * JsValue)).

(** ToBoolean: what [v && ...] and [if (v)] test. *)
Definition truthy (v : JsValue) : bool :=
  match v with
  | JUndefined | JNull => false
  | JBool b => b
  | JNum NaN | JNum (Zero _) => false
  | JNum _ => true
  | JStr s => negb (String.eqb s "")
  | JArr _ | JObj _ => true
  end.

Fixpoint lookup (key : string) (fields : list (string * JsValue)) : option JsValue :=
  match fields with
  | [] => None
  | (k, v) :: rest => if String.eqb k key then Some v else lookup key rest
  end.

(** The property read [v.key], for the keys the component reads ([message],
    [ad_copy_1], [ad_copy_2], [creative_brief], [performance_score]): none of
    them is a property of a string, number, boolean or array, so the read
    gives [undefined] there.  On [null] and [undefined] the read throws a
    TypeError, which is [None] here. *)
Definition get_field (v : JsValue) (key : string) : option JsValue :=
  match v with
  | JUndefined | JNull => None
  | JObj fields =>
      match lookup key fields with
      | Some x => Some x
      | None => Some JUndefined
      end
  | _ => Some JUndefined
  end.

(** ToString on the primitive values. *)
Definition primitive_toString (v : JsValue) : option string :=
  match v with
  | JUndefined => Some "undefined"
  | JNull => Some "null"
  | JBool b => Some (if b then "true" else "false")
  | JNum n => Some (Number_toString n)
  | JStr s => Some s
  | JArr _ | JObj _ => None
  end.

(** ** JSON.stringify *)

Definition dquote : ascii := "034"%char.

Definition hex_digit (n : nat) : ascii :=
  match n with
  | 0 => "0" | 1 => "1" | 2 => "2" | 3 => "3" | 4 => "4" | 5 => "5"
  | 6 => "6" | 7 => "7" | 8 => "8" | 9 => "9" | 10 => "a" | 11 => "b"
  | 12 => "c" | 13 => "d" | 14 => "e" | _ => "f"
  end%nat%char.

(** One code unit of a JSON string literal. *)
Definition quote_char (c : ascii) : string :=
  let n := nat_of_ascii c in
  if Ascii.eqb c dquote then String "\" (String dquote "")
  else if Ascii.eqb c "\" then "\\"
  else if Nat.eqb n 8 then "\b"
  else if Nat.eqb n 9 then "\t"
  else if Nat.eqb n 10 then "\n"
  else if Nat.eqb n 12 then "\f"
  else if Nat.eqb n 13 then "\r"
  else if Nat.ltb n 32 then
    "\u00" ++ String (hex_digit (n / 16)%nat) (String (hex_digit (n mod 16)%nat) "")
  else String c "".

Fixpoint quote_chars (s : string) : string :=
  match s with
  | EmptyString => ""
  | String c rest => quote_char c ++ quote_chars rest
  end.

(** QuoteJSONString. *)
Definition quote (s : string) : string :=
  String dquote (quote_chars s) ++ String dquote "".

Fixpoint join (sep : string) (parts : list string) : string :=
  match parts with
  | [] => ""
  | [x] => x
  | x :: rest => x ++ sep ++ join sep rest
  end.

(** SerializeJSONProperty without a replacer or indentation: [None] is the
    [undefined] that [JSON.stringify(undefined)] returns.  A property whose
    value is [undefined] is left out of an object and written [null] in an
    array; a number that is not finite is written [null]. *)
Fixpoint JSON_stringify (v : JsValue) : option string :=
  match v with
  | JUndefined => None
  | JNull => Some "null"
  | JBool b => Some (if b then "true" else "false")
  | JNum (Finite _ _ _ as n) | JNum (Zero _ as n) => Some (Number_toString n)
  | JNum _ => Some "null"
  | JStr s => Some (quote s)
  | JArr items =>
      let cells :=
        (fix go (l : list JsValue) : list string :=
           match l with
           | [] => []
           | x :: rest =>
               match JSON_stringify x with
               | Some t => t
               | None => "null"
               end :: go rest
           end) items in
      Some ("[" ++ join "," cells ++ "]")
  | JObj fields =>
      let members :=
        (fix go (l : list (string * JsValue)) : list string :=
           match l with
           | [] => []
           | (k, x) :: rest =>
               match JSON_stringify x with
               | Some t => (quote k ++ ":" ++ t) :: go rest
               | None => go rest
               end
           end) fields in
      Some ("{" ++ join "," members ++ "}")
  end.

(** ** Reading a JSON string back

    What [JSON.parse] does with a string literal, after its opening quote:
    the characters it stands for and the text that follows its closing
    quote.  A raw control character, an unknown escape and an unfinished
    literal are refused.  Strings here are sequences of bytes, so a
    [\u] escape is read when its code fits one. *)

Definition hex_value (c : ascii) : option nat :=
  let n := nat_of_ascii c in
  if (48 <=? n)%nat && (n <=? 57)%nat then Some (n - 48)%nat
  else if (97 <=? n)%nat && (n <=? 102)%nat then Some (n - 87)%nat
  else if (65 <=? n)%nat && (n <=? 70)%nat then Some (n - 55)%nat
  else None.

Definition escaped (c : ascii) : option ascii :=
  if Ascii.eqb c dquote then Some dquote
  else if Ascii.eqb c "\" then Some "\"%char
  else if Ascii.eqb c "/" then Some "/"%char
  else if Ascii.eqb c "b" then Some (ascii_of_nat 8)
  else if Ascii.eqb c "t" then Some (ascii_of_nat 9)
  else if Ascii.eqb c "n" then Some (ascii_of_nat 10)
  else if Ascii.eqb c "f" then Some (ascii_of_nat 12)
  else if Ascii.eqb c "r" then Some (ascii_of_nat 13)
  else None.

Definition and_more (c : ascii) (r : option (string * string)) : option (string * string) :=
  match r with
  | Some (read, rest) => Some (String c read, rest)
  | None => None
  end.

Fixpoint unquote_chars (s : string) : option (string * string) :=
  match s with
  | EmptyString => None
  | String c rest =>
      if Ascii.eqb c dquote then Some ("", rest)
      else if Ascii.eqb c "\" then
        match rest with
        | String e rest1 =>
            match escaped e with
            | Some d => and_more d (unquote_chars rest1)
            | None =>
                if Ascii.eqb e "u" then
                  match rest1 with
                  | String h1 (String h2 (String h3 (String h4 rest2))) =>
                      match hex_value h1, hex_value h2, hex_value h3, hex_value h4 with
                      | Some 0%nat, Some 0%nat, Some a, Some b =>
                          and_more (ascii_of_nat (16 * a + b)) (unquote_chars rest2)
                      | _, _, _, _ => None
                      end
                  | _ => None
                  end
                else None
            end
        | EmptyString => None
        end
      else if (nat_of_ascii c <? 32)%nat then None
      else and_more c (unquote_chars rest)
  end.

(** A string of characters that JSON writes as they are. *)
Definition plain_char (c : ascii) : bool :=
  negb (Ascii.eqb c dquote) && negb (Ascii.eqb c "\")
  && negb (nat_of_ascii c <? 32)%nat.

Fixpoint plain (s : string) : bool :=
  match s with
  | EmptyString => true
  | String c rest => plain_char c && plain rest
  end.

(** ** Exceptions

    What [fetch] and [response.json()] reject with, and what [new Error(...)]
    builds: an object with a [name] and a [message]. *)

Record Exception : Type := { exn_name : string; exn_message : JsValue }.

Definition exn_value (e : Exception) : JsValue :=
  JObj [("name", JStr (exn_name e)); ("message", exn_message e)].

Definition new_Error (message : string) : JsValue :=
  exn_value {| exn_name := "Error"; exn_message := JStr message |}.

End Js.

Import Js.

(* ===================================================================== *)
(** * Asynchronous function bodies *)
(* ===================================================================== *)

(** The body of an [async] function as a tree: synchronous effects, [await]
    points with the continuation that runs when the promise settles, a
    normal end and a [throw].  [Eff] are the synchronous effects and [Op X]
    the operations that return a promise of an [X]. *)

Module Async.

Inductive Settled (X : Type) : Type :=
| Fulfilled (x : X)
| Rejected (reason : JsValue).
Arguments Fulfilled {X} x.
Arguments Rejected {X} reason.

Inductive Completion (A : Type) : Type :=
| Normal (a : A)
| Thrown (v : JsValue).
Arguments Normal {A} a.
Arguments Thrown {A} v.

Section Prog.
Variable Eff : Type.
Variable Op : Type -> Type.

Inductive Prog (A : Type) : Type :=
| Ret (a : A)
| Throw (v : JsValue)
| Do (e : Eff) (k : Prog A)
| Await (X : Type) (op : Op X) (k : Settled X -> Prog A).
Arguments Ret {A} a.
Arguments Throw {A} v.
Arguments Do {A} e k.
Arguments Await {A X} op k.

Fixpoint bind {A B} (p : Prog A) (f : A -> Prog B) : Prog B :=
  match p with
  | Ret a => f a
  | Throw v => Throw v
  | Do e k => Do e (bind k f)
  | Await op k => Await op (fun r => bind (k r) f)
  end.

(** [await p]: the value of a fulfilled promise, a throw of the reason of
    a rejected one. *)
Definition await {X} (op : Op X) : Prog X :=
  Await op (fun r => match r with
                     | Fulfilled x => Ret x
                     | Rejected reason => Throw reason
                     end).

Definition perform (e : Eff) : Prog unit := Do e (Ret tt).

(** [try { p } catch (err) { h err }] *)
Fixpoint try_catch {A} (p : Prog A) (h : JsValue -> Prog A) : Prog A :=
  match p with
  | Ret a => Ret a
  | Throw v => h v
  | Do e k => Do e (try_catch k h)
  | Await op k => Await op (fun r => try_catch (k r) h)
  end.

(** [try { p } finally { f }]: [f] runs after a normal end and after a
    throw, and the completion of [p] stands unless [f] throws itself. *)
Fixpoint try_finally {A} (p : Prog A) (f : Prog unit) : Prog A :=
  match p with
  | Ret a => bind f (fun _ => Ret a)
  | Throw v => bind f (fun _ => Throw v)
  | Do e k => Do e (try_finally k f)
  | Await op k => Await op (fun r => try_finally (k r) f)
  end.

Definition try_catch_finally {A} (p : Prog A) (h : JsValue -> Prog A)
    (f : Prog unit) : Prog A :=
  try_finally (try_catch p h) f.

(** What a run did, in order. *)
Inductive Event : Type :=
| Did (e : Eff)
| Awaited (X : Type) (op : Op X).

Section Run.
Variable St : Type.
(** the state change of a synchronous effect *)
Variable apply : Eff -> St -> St.
(** how the promise of an operation settles *)
Variable answer : forall X, Op X -> Settled X.
(** what other event handlers do to the state while it is pending *)
Variable meanwhile : forall X, Op X -> St -> St.

Record Run (A : Type) : Type :=
  { final : St; completion : Completion A; trace : list Event }.
Arguments final {A} r.
Arguments completion {A} r.
Arguments trace {A} r.

Definition logged {A} (ev : Event) (r : Run A) : Run A :=
  {| final := final r; completion := completion r; trace := ev :: trace r |}.

(** The whole run, from the call to the settlement of the promise the
    [async] function returned. *)
Fixpoint run {A} (p : Prog A) (s : St) : Run A :=
  match p with
  | Ret a => {| final := s; completion := Normal a; trace := [] |}
  | Throw v => {| final := s; completion := Thrown v; trace := [] |}
  | Do e k => logged (Did e) (run k (apply e s))
  | Await op k => logged (Awaited _ op) (run (k (answer _ op)) (meanwhile _ op s))
  end.

(** A run followed by another one, and a run with its completion replaced. *)
Definition extend {A B} (r : Run A) (r' : Run B) : Run B :=
  {| final := final r'; completion := completion r'; trace := trace r ++ trace r' |}.

Definition recast {A B} (r : Run A) (c : Completion B) : Run B :=
  {| final := final r; completion := c; trace := trace r |}.

(** The synchronous part of the call: up to the first [await]. *)
Inductive Paused (A : Type) : Type :=
| Finished (c : Completion A)
| Waiting (X : Type) (op : Op X) (k : Settled X -> Prog A).

Fixpoint start {A} (p : Prog A) (s : St) : St * Paused A :=
  match p with
  | Ret a => (s, Finished _ (Normal a))
  | Throw v => (s, Finished _ (Thrown v))
  | Do e k => start k (apply e s)
  | Await op k => (s, Waiting _ _ op k)
  end.
End Run.
End Prog.

Arguments Ret {Eff Op A} a.
Arguments Throw {Eff Op A} v.
Arguments Do {Eff Op A} e k.
Arguments Await {Eff Op A X} op k.
Arguments bind {Eff Op A B} p f.
Arguments await {Eff Op X} op.
Arguments perform {Eff Op} e.
Arguments try_catch {Eff Op A} p h.
Arguments try_finally {Eff Op A} p f.
Arguments try_catch_finally {Eff Op A} p h f.
Arguments Did {Eff Op} e.
Arguments Awaited {Eff Op X} op.
Arguments final {Eff Op St A} r.
Arguments completion {Eff Op St A} r.
Arguments trace {Eff Op St A} r.
Arguments run {Eff Op St} apply answer meanwhile {A} p s.
Arguments logged {Eff Op St A} ev r.
Arguments extend {Eff Op St A B} r r'.
Arguments recast {Eff Op St A B} r c.
Arguments start {Eff Op St} apply {A} p s.
Arguments Finished {Eff Op A} c.
Arguments Waiting {Eff Op A X} op k.

Declare Scope prog_scope.
Delimit Scope prog_scope with prog.
Notation "x <- c ;; k" := (bind c (fun x => k))
  (at level 100, c at next level, right associativity) : prog_scope.
Notation "c ;; k" := (bind c (fun _ => k))
  (at level 100, right associativity) : prog_scope.

End Async.

Import Async.

(* ===================================================================== *)
(** * The component *)
(* ===================================================================== *)

Module View.

(** ** State

    The six [useState] cells of [App], with their initial values. *)

Record ViewState : Type :=
  { programName : string;
    targetAudience : string;
    isLocalized : bool;
    isLoading : bool;
    creative : JsValue;
    error : JsValue }.

Definition initial : ViewState :=
  {| programName := ""; targetAudience := ""; isLocalized := false;
     isLoading := false; creative := JNull; error := JStr "" |}.

(** The synchronous effects of the handlers: the six setters, and
    [e.preventDefault()], which acts on the event and not on the state. *)
Inductive Effect : Type :=
| PreventDefault
| SetProgramName (v : string)
| SetTargetAudience (v : string)
| SetIsLocalized (b : bool)
| SetIsLoading (b : bool)
| SetCreative (v : JsValue)
| SetError (v : JsValue).

Definition apply_effect (e : Effect) (s : ViewState) : ViewState :=
  match e with
  | PreventDefault => s
  | SetProgramName v =>
      {| programName := v; targetAudience := targetAudience s;
         isLocalized := isLocalized s; isLoading := isLoading s;
         creative := creative s; error := error s |}
  | SetTargetAudience v =>
      {| programName := programName s; targetAudience := v;
         isLocalized := isLocalized s; isLoading := isLoading s;
         creative := creative s; error := error s |}
  | SetIsLocalized b =>
      {| programName := programName s; targetAudience := targetAudience s;
         isLocalized := b; isLoading := isLoading s;
         creative := creative s; error := error s |}
  | SetIsLoading b =>
      {| programName := programName s; targetAudience := targetAudience s;
         isLocalized := isLocalized s; isLoading := b;
         creative := creative s; error := error s |}
  | SetCreative v =>
      {| programName := programName s; targetAudience := targetAudience s;
         isLocalized := isLocalized s; isLoading := isLoading s;
         creative := v; error := error s |}
  | SetError v =>
      {| programName := programName s; targetAudience := targetAudience s;
         isLocalized := isLocalized s; isLoading := isLoading s;
         creative := creative s; error := v |}
  end.

(** ** The network

    A request as [fetch(url, init)] describes it, a response with the
    status that decides [response.ok] and with what [response.json()]
    settles to. *)

Record Request : Type :=
  { url : string;
    method : string;
    headers : list (string * string);
    body : option string }.

Inductive Outcome (X : Type) : Type :=
| Resolves (x : X)
| Rejects (e : Exception).
Arguments Resolves {X} x.
Arguments Rejects {X} e.

Record Response : Type :=
  { status : Z;
    json_outcome : Outcome JsValue }.

(** [response.ok]: the status is in the range 200 to 299. *)
Definition ok (r : Response) : bool :=
  ((200 <=? status r) && (status r <=? 299))%Z.

Inductive Op : Type -> Type :=
| Fetch (req : Request) : Op Response
| ReadJson (r : Response) : Op JsValue.

Definition Prog : Type -> Type := Async.Prog Effect Op.

Definition preventDefault : Prog unit := perform PreventDefault.
Definition setProgramName (v : string) : Prog unit := perform (SetProgramName v).
Definition setTargetAudience (v : string) : Prog unit := perform (SetTargetAudience v).
Definition setIsLocalized (b : bool) : Prog unit := perform (SetIsLocalized b).
Definition setIsLoading (b : bool) : Prog unit := perform (SetIsLoading b).
Definition setCreative (v : JsValue) : Prog unit := perform (SetCreative v).
Definition setError (v : JsValue) : Prog unit := perform (SetError v).

Definition throw {A} (v : JsValue) : Prog A := Throw v.
Definition ret {A} (a : A) : Prog A := Ret a.

(** [v.key] as an expression: a TypeError on [null] and [undefined]. *)
Definition field (v : JsValue) (key : string) : Prog JsValue :=
  match get_field v key with
  | Some x => ret x
  | None =>
      throw (exn_value {| exn_name := "TypeError";
                          exn_message := JStr "Cannot read properties" |})
  end.

(** ** The handlers *)

Definition endpoint : string := "http://127.0.0.1:8000/generate".

(** The request [handleSubmit] builds from the state it closes over. *)
Definition generate_request (s : ViewState) : Request :=
  {| url := endpoint;
     method := "POST";
     headers := [("Content-Type", "application/json")];
     body := JSON_stringify
               (JObj [("program_name", JStr (programName s));
                      ("target_audience", JStr (targetAudience s));
                      ("localize", JBool (isLocalized s))]) |}.

Local Open Scope prog_scope.

(** The three blocks of the [try] statement of [handleSubmit]. *)
Definition try_block (s : ViewState) : Prog unit :=
  response <- await (Fetch (generate_request s)) ;;
  (if negb (ok response)
   then throw (new_Error "Failed to generate creative.")
   else ret tt) ;;
  data <- await (ReadJson response) ;;
  setCreative data.

Definition catch_block (err : JsValue) : Prog unit :=
  message <- field err "message" ;;
  setError message.

Definition finally_block : Prog unit := setIsLoading false.

(** [handleSubmit], created by the render of state [s]: it closes over the
    input fields of that state. *)
Definition handleSubmit (s : ViewState) : Prog unit :=
  preventDefault ;;
  setIsLoading true ;;
  setError (JStr "") ;;
  setCreative JNull ;;
  try_catch_finally (try_block s) catch_block finally_block.

(** The [onChange] handlers of the two text inputs and of the checkbox,
    called with [e.target.value] and [e.target.checked]. *)
Definition onProgramNameChange (value : string) : Prog unit := setProgramName value.
Definition onTargetAudienceChange (value : string) : Prog unit := setTargetAudience value.
Definition onLocalizedChange (checked : bool) : Prog unit := setIsLocalized checked.

Local Close Scope prog_scope.

(** ** Running a handler against an environment *)

(** What the user does to the form while a request is pending. *)
Inductive Edit : Type :=
| TypeProgramName (value : string)
| TypeTargetAudience (value : string)
| TickLocalized (checked : bool).

Definition edit_handler (ed : Edit) : Prog unit :=
  match ed with
  | TypeProgramName v => onProgramNameChange v
  | TypeTargetAudience v => onTargetAudienceChange v
  | TickLocalized b => onLocalizedChange b
  end.

Definition apply_edit (s : ViewState) (ed : Edit) : ViewState :=
  fst (start apply_effect (edit_handler ed) s).

(** The environment of a submission: how the endpoint answers a request,
    and the edits the user makes while each promise is pending. *)
Record Env : Type :=
  { respond : Request -> Outcome Response;
    typing : forall X, Op X -> list Edit }.

Definition settle {X} (o : Outcome X) : Settled X :=
  match o with
  | Resolves x => Fulfilled x
  | Rejects e => Rejected (exn_value e)
  end.

Definition answer (env : Env) (X : Type) (op : Op X) : Settled X :=
  match op in Op T return Settled T with
  | Fetch req => settle (respond env req)
  | ReadJson r => settle (json_outcome r)
  end.

Definition meanwhile (env : Env) (X : Type) (op : Op X) (s : ViewState) : ViewState :=
  fold_left apply_edit (typing env X op) s.

Definition exec (env : Env) {A} (p : Prog A) (s : ViewState) :=
  run apply_effect (answer env) (meanwhile env) p s.

(** A submission of the form in state [s]. *)
Definition submit (env : Env) (s : ViewState) := exec env (handleSubmit s) s.

(** The synchronous part of a submission: the state and the pending
    operation when [handleSubmit] first yields. *)
Definition submit_start (s : ViewState) := start apply_effect (handleSubmit s) s.

(** The requests a run issued. *)
Fixpoint requests (t : list (Event Effect Op)) : list Request :=
  match t with
  | [] => []
  | @Awaited _ _ _ (Fetch req) :: rest => req :: requests rest
  | _ :: rest => requests rest
  end.

(** The response bodies a run read. *)
Fixpoint bodies_read (t : list (Event Effect Op)) : list Response :=
  match t with
  | [] => []
  | @Awaited _ _ _ (ReadJson r) :: rest => r :: bodies_read rest
  | _ :: rest => bodies_read rest
  end.

(** The request a paused handler waits for, if it waits for one. *)
Definition waiting_on {A} (p : Paused Effect Op A) : option Request :=
  match p with
  | @Waiting _ _ _ _ (Fetch req) _ => Some req
  | _ => None
  end.

(** The request path of a submission throws [v]: the [try] block ends with
    a throw of [v]. *)
Definition throws (env : Env) (s : ViewState) (v : JsValue) : Prop :=
  completion (exec env (try_block s) s) = Thrown v.

(** The tests of [{error && ...}] and [{creative && ...}] in the JSX. *)
Definition error_present (s : ViewState) : bool := truthy (error s).
Definition result_present (s : ViewState) : bool := truthy (creative s).

(** The effects of a run, in order, without its [await] points. *)
Fixpoint writes (t : list (Event Effect Op)) : list Effect :=
  match t with
  | [] => []
  | Did e :: rest => e :: writes rest
  | _ :: rest => writes rest
  end.

(** The edits the user made while a submission of state [s] was pending:
    those typed during the request and, when the handler went on to read
    the body, those typed during the read. *)
Definition edits_during (env : Env) (s : ViewState) : list Edit :=
  (typing env Response (Fetch (generate_request s)) ++
   match respond env (generate_request s) with
   | Resolves r => if ok r then typing env JsValue (ReadJson r) else []
   | Rejects _ => []
   end)%list.

(** Two edits go to the same input. *)
Definition same_field (a b : Edit) : bool :=
  match a, b with
  | TypeProgramName _, TypeProgramName _ => true
  | TypeTargetAudience _, TypeTargetAudience _ => true
  | TickLocalized _, TickLocalized _ => true
  | _, _ => false
  end.

(** The input an edit went to holds what the edit put there. *)
Definition holds (s : ViewState) (ed : Edit) : Prop :=
  match ed with
  | TypeProgramName v => programName s = v
  | TypeTargetAudience v => targetAudience s = v
  | TickLocalized b => isLocalized s = b
  end.

(** Two states show the same values in the three inputs. *)
Definition same_inputs (s s' : ViewState) : Prop :=
  programName s = programName s'
  /\ targetAudience s = targetAudience s'
  /\ isLocalized s = isLocalized s'.

(** A paused handler goes on when the promise it waits for settles the way
    [env] says: it runs, from the state of that moment, up to its next
    [await] or to its end.  Other handlers may have run in between. *)
Definition resume (env : Env) {A} (p : Paused Effect Op A) (s : ViewState)
    : ViewState * Paused Effect Op A :=
  match p with
  | Finished c => (s, Finished c)
  | Waiting op k => start apply_effect (k (answer env _ op)) s
  end.

(** A handler has ended. *)
Definition finished {A} (p : Paused Effect Op A) : bool :=
  match p with
  | Finished _ => true
  | Waiting _ _ => false
  end.

End View.

Import View.

(* ===================================================================== *)
(** * Rendering *)
(* ===================================================================== *)

Module Render.

(** ** The element tree

    What the JSX of [App] evaluates to: host elements with their props and
    children, and the JavaScript values that stand in child position (the
    literal text of the JSX and the [{...}] expression containers). *)

Inductive Handler : Type :=
| OnSubmit
| OnProgramNameChange
| OnTargetAudienceChange
| OnLocalizedChange.

Inductive PropValue : Type :=
| PStr (s : string)
| PBool (b : bool)
| PHandler (h : Handler).

Inductive Element : Type :=
| Tag (name : string) (props : list (string * PropValue)) (children : list Element)
| Child (v : JsValue).

Definition text (s : string) : Element := Child (JStr s).

(** The class names of a [className] prop, separated by spaces. *)
Fixpoint class_names (acc : string) (s : string) : list string :=
  match s with
  | EmptyString => if String.eqb acc "" then [] else [acc]
  | String c rest =>
      if Ascii.eqb c " " then
        ((if String.eqb acc "" then [] else [acc]) ++ class_names "" rest)%list
      else class_names (acc ++ String c "") rest
  end.

Fixpoint prop_of (key : string) (props : list (string * PropValue)) : option PropValue :=
  match props with
  | [] => None
  | (k, v) :: rest => if String.eqb k key then Some v else prop_of key rest
  end.

Definition has_class (c : string) (props : list (string * PropValue)) : bool :=
  match prop_of "className" props with
  | Some (PStr names) => existsb (String.eqb c) (class_names "" names)
  | _ => false
  end.

(** [v && e] in child position: the element when [v] is truthy, [v] itself
    otherwise. *)
Definition and_then (v : JsValue) (e : option Element) : option Element :=
  if truthy v then e else Some (Child v).

(** The inline component [CreativeDisplay]. *)
Definition CreativeDisplay (title : string) (content : JsValue) : Element :=
  Tag "div" [("className", PStr "creative-card")]
    [Tag "h4" [] [text title];
     Tag "p" [] [Child content]].

(** The line of the performance section: the text, the score as the
    expression container holds it, and the percent sign. *)
Definition ctr_paragraph (score : JsValue) : Element :=
  Tag "p" []
    [text "Predicted Click-Through Rate (CTR): ";
     Child score;
     text "%"].

(** The results block; its four property reads throw on [null] and
    [undefined], which is [None]. *)
Definition results_container (creative : JsValue) : option Element :=
  match get_field creative "ad_copy_1", get_field creative "ad_copy_2",
        get_field creative "creative_brief", get_field creative "performance_score" with
  | Some copy1, Some copy2, Some brief, Some score =>
      Some
        (Tag "div" [("className", PStr "results-container")]
           [Tag "h2" [] [text "Generated Creatives:"];
            Tag "div" [("className", PStr "creatives-grid")]
              [CreativeDisplay "Ad Copy 1" copy1;
               CreativeDisplay "Ad Copy 2" copy2;
               CreativeDisplay "Creative Brief" brief];
            Tag "div" [("className", PStr "feedback-section")]
              [Tag "h3" [] [text "Simulated Performance Dashboard"];
               ctr_paragraph score]])
  | _, _, _, _ => None
  end.

Definition form (s : ViewState) : Element :=
  Tag "form" [("className", PStr "input-form"); ("onSubmit", PHandler OnSubmit)]
    [Tag "div" [("className", PStr "form-group")]
       [Tag "label" [] [text "Program Name:"];
        Tag "input"
          [("type", PStr "text");
           ("value", PStr (programName s));
           ("onChange", PHandler OnProgramNameChange);
           ("placeholder", PStr "e.g., Data Science Master's");
           ("required", PBool true)] []];
     Tag "div" [("className", PStr "form-group")]
       [Tag "label" [] [text "Target Audience:"];
        Tag "input"
          [("type", PStr "text");
           ("value", PStr (targetAudience s));
           ("onChange", PHandler OnTargetAudienceChange);
           ("placeholder", PStr "e.g., Working professionals in Bangalore");
           ("required", PBool true)] []];
     Tag "div" [("className", PStr "form-group checkbox-group")]
       [Tag "input"
          [("type", PStr "checkbox");
           ("checked", PBool (isLocalized s));
           ("onChange", PHandler OnLocalizedChange)] [];
        Tag "label" [] [text "Localize for a different market"]];
     Tag "button" [("type", PStr "submit"); ("disabled", PBool (isLoading s))]
       [text (if isLoading s then "Generating..." else "Generate Creatives")]].

(** The elements of a tree that satisfy [want], in document order. *)
Fixpoint elements (want : string -> list (string * PropValue) -> bool)
    (e : Element) : list Element :=
  match e with
  | Child _ => []
  | Tag name props children =>
      ((if want name props then [e] else []) ++
       (fix go (l : list Element) : list Element :=
          match l with
          | [] => []
          | x :: rest => elements want x ++ go rest
          end) children)%list
  end.

(** The [checked] prop of the checkboxes of an element tree. *)
Definition checkboxes (e : Element) : list (option PropValue) :=
  map (fun box => match box with
                  | Tag _ props _ => prop_of "checked" props
                  | Child _ => None
                  end)
      (elements (fun name props =>
                   String.eqb name "input" &&
                   match prop_of "type" props with
                   | Some (PStr t) => String.eqb t "checkbox"
                   | _ => false
                   end) e).

(** The paragraphs of the performance section of an element tree. *)
Definition feedback_paragraphs (e : Element) : list Element :=
  flat_map (elements (fun name _ => String.eqb name "p"))
           (elements (fun _ props => has_class "feedback-section" props) e).

(** The element tree [App] returns in state [s]; [None] when evaluating the
    JSX throws. *)
Definition App (s : ViewState) : option Element :=
  match and_then (error s)
          (Some (Tag "div" [("className", PStr "error-message")] [Child (error s)])),
        and_then (creative s) (results_container (creative s)) with
  | Some error_block, Some results =>
      Some
        (Tag "div" [("className", PStr "app-container")]
           [Tag "header" [("className", PStr "app-header")]
              [Tag "h1" [] [text "AI Marketing Creative Engine"];
               Tag "p" [] [text "Generate on-brand and localized marketing content instantly."]];
            Tag "main" [("className", PStr "main-content")]
              [form s; error_block; results]])
  | _, _ => None
  end.

(** ** The page

    What React DOM makes of an element tree.  In child position a string
    is a text node (none for the empty string), a number the text of its
    string conversion, [null], [undefined] and booleans nothing, an array
    its items in order; a plain object is refused with an error, which is
    [None]. *)

Inductive Node : Type :=
| Text (s : string)
| Elem (tag : string) (props : list (string * PropValue)) (children : list Node).

Fixpoint render_value (v : JsValue) : option (list Node) :=
  match v with
  | JUndefined | JNull | JBool _ => Some []
  | JStr s => if String.eqb s "" then Some [] else Some [Text s]
  | JNum n => Some [Text (Number_toString n)]
  | JArr items =>
      (fix go (l : list JsValue) : option (list Node) :=
         match l with
         | [] => Some []
         | x :: rest =>
             match render_value x, go rest with
             | Some a, Some b => Some (a ++ b)%list
             | _, _ => None
             end
         end) items
  | JObj _ => None
  end.

Fixpoint render (e : Element) : option (list Node) :=
  match e with
  | Child v => render_value v
  | Tag name props children =>
      match (fix go (l : list Element) : option (list Node) :=
               match l with
               | [] => Some []
               | x :: rest =>
                   match render x, go rest with
                   | Some a, Some b => Some (a ++ b)%list
                   | _, _ => None
                   end
               end) children with
      | Some kids => Some [Elem name props kids]
      | None => None
      end
  end.

(** The page for state [s]. *)
Definition page (s : ViewState) : option (list Node) :=
  match App s with
  | Some e => render e
  | None => None
  end.

(** ** Reading the page *)

(** The text a node shows: its text nodes, in document order. *)
Fixpoint text_content (n : Node) : string :=
  match n with
  | Text s => s
  | Elem _ _ children =>
      (fix go (l : list Node) : string :=
         match l with
         | [] => ""
         | x :: rest => text_content x ++ go rest
         end) children
  end.

Definition text_of (l : list Node) : string := concat "" (map text_content l).

(** The elements that satisfy [want], in document order. *)
Fixpoint select (want : string -> list (string * PropValue) -> bool) (n : Node) : list Node :=
  match n with
  | Text _ => []
  | Elem tag props children =>
      ((if want tag props then [n] else []) ++
       (fix go (l : list Node) : list Node :=
          match l with
          | [] => []
          | x :: rest => select want x ++ go rest
          end) children)%list
  end.

Definition select_all (want : string -> list (string * PropValue) -> bool)
    (l : list Node) : list Node :=
  flat_map (select want) l.

Definition by_class (c : string) : list Node -> list Node :=
  select_all (fun _ props => has_class c props).

Definition by_tag (t : string) : list Node -> list Node :=
  select_all (fun tag _ => String.eqb tag t).

(** The texts of the error blocks on the page. *)
Definition error_texts (pg : list Node) : list string :=
  map text_content (by_class "error-message" pg).

(** The result cards on the page: title and content of each. *)
Definition result_cards (pg : list Node) : list (string * string) :=
  map (fun card => (text_of (by_tag "h4" [card]), text_of (by_tag "p" [card])))
      (by_class "creative-card" pg).

(** The lines of the performance section. *)
Definition ctr_lines (pg : list Node) : list string :=
  map text_content (by_tag "p" (by_class "feedback-section" pg)).

Definition results_shown (pg : list Node) : bool :=
  negb (Nat.eqb (List.length (by_class "results-container" pg)) 0).

Definition error_shown (pg : list Node) : bool :=
  negb (Nat.eqb (List.length (by_class "error-message" pg)) 0).

(** ** Reading the element tree *)

Definition props_of (e : Element) : list (string * PropValue) :=
  match e with
  | Tag _ props _ => props
  | Child _ => []
  end.

Definition forms (e : Element) : list Element :=
  elements (fun name _ => String.eqb name "form") e.

(** The text inputs of a tree. *)
Definition text_inputs (e : Element) : list Element :=
  elements (fun name props =>
              String.eqb name "input" &&
              match prop_of "type" props with
              | Some (PStr t) => String.eqb t "text"
              | _ => false
              end) e.

Definition buttons (e : Element) : list Element :=
  elements (fun name _ => String.eqb name "button") e.

(** The error blocks and the results blocks of a tree. *)
Definition outcome_blocks (e : Element) : list Element :=
  elements (fun _ props => has_class "error-message" props
                           || has_class "results-container" props) e.

Definition cards (e : Element) : list Element :=
  elements (fun _ props => has_class "creative-card" props) e.

(** The text that stands directly in the [main] element of a page, outside
    the form and the two blocks. *)
Definition main_texts (pg : list Node) : list string :=
  flat_map (fun n => match n with
                     | Elem _ _ children =>
                         flat_map (fun c => match c with
                                            | Text t => [t]
                                            | Elem _ _ _ => []
                                            end) children
                     | Text _ => []
                     end)
           (by_tag "main" pg).

(** A value that is not an array or an object, and the text React shows
    for it in child position: a string as it is, a number as its string
    conversion, and nothing for [null], [undefined] and the booleans. *)
Definition primitive (v : JsValue) : bool :=
  match v with
  | JArr _ | JObj _ => false
  | _ => true
  end.

Definition shown_value (v : JsValue) : string :=
  match v with
  | JStr t => t
  | JNum n => Number_toString n
  | _ => ""
  end.

End Render.

Import Render.

(* ===================================================================== *)
(** * Mocked endpoints *)
(* ===================================================================== *)

Module Mock.

Definition no_typing : forall X, Op X -> list Edit := fun _ _ => [].

(** The number [12.5]. *)
Definition twelve_and_a_half : Number := Number_of_decimal 125 (-1).

(** HTTP 200 with the body
    [{ad_copy_1:"A", ad_copy_2:"B", creative_brief:"C", performance_score:12.5}]. *)
Definition sample_body : JsValue :=
  JObj [("ad_copy_1", JStr "A");
        ("ad_copy_2", JStr "B");
        ("creative_brief", JStr "C");
        ("performance_score", JNum twelve_and_a_half)].

Definition http (code : Z) (parsed : Outcome JsValue) : Env :=
  {| respond := fun _ => Resolves {| status := code; json_outcome := parsed |};
     typing := no_typing |}.

Definition ok_sample : Env := http 200 (Resolves sample_body).

(** HTTP 200 with the JSON body [null]. *)
Definition ok_null : Env := http 200 (Resolves JNull).

(** HTTP 200 with a result whose score is [null]. *)
Definition ok_null_score : Env :=
  http 200 (Resolves (JObj [("ad_copy_1", JStr "A");
                            ("ad_copy_2", JStr "B");
                            ("creative_brief", JStr "C");
                            ("performance_score", JNull)])).

(** HTTP 200 with a body that is not JSON: [response.json()] rejects with a
    SyntaxError. *)
Definition syntax_error : Exception :=
  {| exn_name := "SyntaxError";
     exn_message := JStr "Unexpected token < in JSON at position 0" |}.

Definition ok_malformed : Env := http 200 (Rejects syntax_error).

(** HTTP 500 with an error detail in the body. *)
Definition server_error : Env :=
  http 500 (Resolves (JObj [("detail", JStr "model overloaded")])).

(** A network-level exception: [fetch] rejects, while the user goes on
    typing. *)
Definition network_down : Env :=
  {| respond := fun _ => Rejects {| exn_name := "TypeError";
                                    exn_message := JStr "network down" |};
     typing := fun _ _ => [TypeProgramName "MBA in Finance"] |}.

(** [fetch] rejects with an exception whose message is empty. *)
Definition silent_failure : Env :=
  {| respond := fun _ => Rejects {| exn_name := "Error"; exn_message := JStr "" |};
     typing := no_typing |}.

(** A filled-in form. *)
Definition filled : ViewState :=
  {| programName := "Data Science Master's";
     targetAudience := "Working professionals in Bangalore";
     isLocalized := true;
     isLoading := false;
     creative := JObj [("ad_copy_1", JStr "old")];
     error := JStr "stale error" |}.

End Mock.

Import Mock.

(* ===================================================================== *)
(** * Facts about the layers *)
(* ===================================================================== *)

(** ** Number conversion, on samples *)

Example toString_12_5 : Number_toString twelve_and_a_half = "12.5".
Proof. vm_compute. reflexivity. Qed.

Example toString_samples :
  map (fun d => Number_toString (Number_of_decimal (fst d) (snd d)))
      [(1, -1); (-425, -2); (100, 0); (150, 0); (1, 21); (1, -7); (5, -324);
       (17976931348623157, 292); (9007199254740993, 0); (0, 0)]%Z
  = ["0.1"; "-4.25"; "100"; "150"; "1e+21"; "1e-7"; "5e-324";
     "1.7976931348623157e+308"; "9007199254740992"; "0"].
Proof. vm_compute. reflexivity. Qed.

Example twelve_and_a_half_binary64 :
  twelve_and_a_half = Finite false 7036874417766400 (-49)
  /\ binary64 twelve_and_a_half = true.
Proof. vm_compute. split; reflexivity. Qed.

(** ** Runs of the combinators *)

Section RunFacts.
Context {Eff : Type} {Op : Type -> Type} {St : Type}.
Variable apply : Eff -> St -> St.
Variable answer : forall X, Op X -> Settled X.
Variable meanwhile : forall X, Op X -> St -> St.

#[local] Abbreviation go := (run apply answer meanwhile).

Lemma run_bind {A B} (p : Async.Prog Eff Op A) (f : A -> Async.Prog Eff Op B) (s : St) :
  go (bind p f) s =
  match completion (go p s) with
  | Normal a => extend (go p s) (go (f a) (final (go p s)))
  | Thrown v => recast (go p s) (Thrown v)
  end.
Proof.
  revert s. induction p as [a | v | e k IH | X op k IH]; intros s; simpl.
  - destruct (go (f a) s); reflexivity.
  - reflexivity.
  - rewrite IH. destruct (completion (go k (apply e s))); reflexivity.
  - rewrite IH. destruct (completion (go (k (answer X op)) (meanwhile X op s))); reflexivity.
Qed.

Lemma run_try_catch {A} (p : Async.Prog Eff Op A) (h : JsValue -> Async.Prog Eff Op A) (s : St) :
  go (try_catch p h) s =
  match completion (go p s) with
  | Normal a => recast (go p s) (Normal a)
  | Thrown v => extend (go p s) (go (h v) (final (go p s)))
  end.
Proof.
  revert s. induction p as [a | v | e k IH | X op k IH]; intros s; simpl.
  - reflexivity.
  - destruct (go (h v) s); reflexivity.
  - rewrite IH. destruct (completion (go k (apply e s))); reflexivity.
  - rewrite IH. destruct (completion (go (k (answer X op)) (meanwhile X op s))); reflexivity.
Qed.

Lemma run_try_finally {A} (p : Async.Prog Eff Op A) (f : Async.Prog Eff Op unit) (s : St) :
  go (try_finally p f) s =
  let r := go p s in
  let rf := go f (final r) in
  {| final := final rf;
     completion := match completion rf with
                   | Normal _ => completion r
                   | Thrown v => Thrown v
                   end;
     trace := trace r ++ trace rf |}.
Proof.
  revert s. induction p as [a | v | e k IH | X op k IH]; intros s; simpl.
  - rewrite run_bind. destruct (go f s) as [fs [u | w] ft]; unfold extend, recast; simpl.
    + rewrite app_nil_r. reflexivity.
    + reflexivity.
  - rewrite run_bind. destruct (go f s) as [fs [u | w] ft]; unfold extend, recast; simpl.
    + rewrite app_nil_r. reflexivity.
    + reflexivity.
  - rewrite IH. reflexivity.
  - rewrite IH. reflexivity.
Qed.

(** A [finally] block made of one effect always runs last, and never
    changes how the [try] statement completes. *)
Lemma run_finally_effect {A} (p : Async.Prog Eff Op A) (e : Eff) (s : St) :
  go (try_finally p (perform e)) s =
  {| final := apply e (final (go p s));
     completion := completion (go p s);
     trace := trace (go p s) ++ [Did e] |}.
Proof. rewrite run_try_finally. reflexivity. Qed.

End RunFacts.

(** ** The submit handler *)

Arguments generate_request : simpl never.
Arguments meanwhile : simpl never.

Lemma apply_edit_keeps (s : ViewState) (ed : Edit) :
  isLoading (apply_edit s ed) = isLoading s
  /\ creative (apply_edit s ed) = creative s
  /\ error (apply_edit s ed) = error s.
Proof. destruct ed; repeat split; reflexivity. Qed.

Lemma meanwhile_keeps (env : Env) (X : Type) (op : Op X) (s : ViewState) :
  isLoading (meanwhile env X op s) = isLoading s
  /\ creative (meanwhile env X op s) = creative s
  /\ error (meanwhile env X op s) = error s.
Proof.
  unfold meanwhile. generalize (typing env X op) as edits. intros edits.
  revert s. induction edits as [| ed rest IH]; intros s; simpl.
  - repeat split.
  - destruct (IH (apply_edit s ed)) as (Hl & Hc & He).
    destruct (apply_edit_keeps s ed) as (Hl' & Hc' & He').
    repeat split; congruence.
Qed.

Section Submission.
Variable env : Env.
Variable s : ViewState.

(** The state after the three setters that open [handleSubmit]. *)
#[local] Abbreviation cleared :=
  (apply_effect (SetCreative JNull)
     (apply_effect (SetError (JStr ""))
        (apply_effect (SetIsLoading true)
           (apply_effect PreventDefault s)))).

(** The state when the promise of [fetch] has settled. *)
#[local] Abbreviation fetched :=
  (meanwhile env Response (Fetch (generate_request s)) cleared).

#[local] Abbreviation parsed r := (meanwhile env JsValue (ReadJson r) fetched).

Lemma handleSubmit_shape :
  handleSubmit s =
  Do PreventDefault
    (Do (SetIsLoading true)
       (Do (SetError (JStr ""))
          (Do (SetCreative JNull)
             (try_finally (try_catch (try_block s) catch_block)
                          (perform (SetIsLoading false)))))).
Proof. reflexivity. Qed.

Lemma try_block_run (s0 : ViewState) :
  exec env (try_block s) s0 =
  let s1 := meanwhile env Response (Fetch (generate_request s)) s0 in
  match respond env (generate_request s) with
  | Rejects e =>
      {| final := s1; completion := Thrown (exn_value e);
         trace := [Awaited (Fetch (generate_request s))] |}
  | Resolves r =>
      if ok r then
        let s2 := meanwhile env JsValue (ReadJson r) s1 in
        match json_outcome r with
        | Resolves data =>
            {| final := apply_effect (SetCreative data) s2;
               completion := Normal tt;
               trace := [Awaited (Fetch (generate_request s));
                         Awaited (ReadJson r); Did (SetCreative data)] |}
        | Rejects e =>
            {| final := s2; completion := Thrown (exn_value e);
               trace := [Awaited (Fetch (generate_request s));
                         Awaited (ReadJson r)] |}
        end
      else
        {| final := s1;
           completion := Thrown (new_Error "Failed to generate creative.");
           trace := [Awaited (Fetch (generate_request s))] |}
  end.
Proof.
  unfold exec, try_block. simpl.
  destruct (respond env (generate_request s)) as [r | e]; simpl.
  - destruct (ok r); simpl.
    + destruct (json_outcome r) as [data | e]; reflexivity.
    + reflexivity.
  - reflexivity.
Qed.

Lemma catch_block_run (e : Exception) (s0 : ViewState) :
  exec env (catch_block (exn_value e)) s0 =
  {| final := apply_effect (SetError (exn_message e)) s0;
     completion := Normal tt;
     trace := [Did (SetError (exn_message e))] |}.
Proof. reflexivity. Qed.

Lemma submit_unfold :
  submit env s =
  let r := exec env (try_catch (try_block s) catch_block) cleared in
  {| final := apply_effect (SetIsLoading false) (final r);
     completion := completion r;
     trace := [Did PreventDefault; Did (SetIsLoading true);
               Did (SetError (JStr "")); Did (SetCreative JNull)]
              ++ trace r ++ [Did (SetIsLoading false)] |}.
Proof.
  unfold submit, exec. rewrite handleSubmit_shape.
  change (run apply_effect (answer env) (meanwhile env)
            (Do PreventDefault (Do (SetIsLoading true) (Do (SetError (JStr ""))
               (Do (SetCreative JNull)
                 (try_finally (try_catch (try_block s) catch_block)
                     (perform (SetIsLoading false))))))) s)
    with (logged (Did PreventDefault) (logged (Did (SetIsLoading true))
           (logged (Did (SetError (JStr ""))) (logged (Did (SetCreative JNull))
             (run apply_effect (answer env) (meanwhile env)
                (try_finally (try_catch (try_block s) catch_block)
                     (perform (SetIsLoading false))) cleared))))).
  rewrite run_finally_effect. reflexivity.
Qed.

(** The [catch] block itself throws when what it caught has no properties
    to read; the reasons [fetch] and [response.json()] reject with are
    objects, so this does not happen in a submission. *)
Example catch_block_on_null :
  completion (exec env (catch_block JNull) s)
  = Thrown (exn_value {| exn_name := "TypeError";
                         exn_message := JStr "Cannot read properties" |}).
Proof. reflexivity. Qed.

(** The whole submission in closed form, by the way the endpoint answers. *)
Lemma submit_run :
  submit env s =
  match respond env (generate_request s) with
  | Rejects e =>
      {| final := apply_effect (SetIsLoading false)
                    (apply_effect (SetError (exn_message e)) fetched);
         completion := Normal tt;
         trace := [Did PreventDefault; Did (SetIsLoading true);
                   Did (SetError (JStr "")); Did (SetCreative JNull);
                   Awaited (Fetch (generate_request s));
                   Did (SetError (exn_message e)); Did (SetIsLoading false)] |}
  | Resolves r =>
      if ok r then
        match json_outcome r with
        | Resolves data =>
            {| final := apply_effect (SetIsLoading false)
                          (apply_effect (SetCreative data) (parsed r));
               completion := Normal tt;
               trace := [Did PreventDefault; Did (SetIsLoading true);
                         Did (SetError (JStr "")); Did (SetCreative JNull);
                         Awaited (Fetch (generate_request s));
                         Awaited (ReadJson r);
                         Did (SetCreative data); Did (SetIsLoading false)] |}
        | Rejects e =>
            {| final := apply_effect (SetIsLoading false)
                          (apply_effect (SetError (exn_message e)) (parsed r));
               completion := Normal tt;
               trace := [Did PreventDefault; Did (SetIsLoading true);
                         Did (SetError (JStr "")); Did (SetCreative JNull);
                         Awaited (Fetch (generate_request s));
                         Awaited (ReadJson r);
                         Did (SetError (exn_message e)); Did (SetIsLoading false)] |}
        end
      else
        {| final := apply_effect (SetIsLoading false)
                      (apply_effect (SetError (JStr "Failed to generate creative."))
                         fetched);
           completion := Normal tt;
           trace := [Did PreventDefault; Did (SetIsLoading true);
                     Did (SetError (JStr "")); Did (SetCreative JNull);
                     Awaited (Fetch (generate_request s));
                     Did (SetError (JStr "Failed to generate creative."));
                     Did (SetIsLoading false)] |}
  end.
Proof.
  rewrite submit_unfold. unfold exec. rewrite run_try_catch.
  fold (exec env (try_block s) cleared). rewrite try_block_run.
  destruct (respond env (generate_request s)) as [r | e]; cbv zeta.
  - destruct (ok r).
    + destruct (json_outcome r) as [data | e]; reflexivity.
    + reflexivity.
  - reflexivity.
Qed.

(** What the request path can throw: the reason of a rejected [fetch], the
    fixed error of a non-success status, or the reason of a rejected
    [response.json()]. *)
Lemma throws_cases (v : JsValue) :
  throws env s v <->
  (exists e, respond env (generate_request s) = Rejects e /\ v = exn_value e)
  \/ (exists r, respond env (generate_request s) = Resolves r /\ ok r = false
                /\ v = new_Error "Failed to generate creative.")
  \/ (exists r e, respond env (generate_request s) = Resolves r /\ ok r = true
                  /\ json_outcome r = Rejects e /\ v = exn_value e).
Proof.
  unfold throws. rewrite try_block_run.
  destruct (respond env (generate_request s)) as [r | e]; cbv zeta.
  - destruct (ok r) eqn:Hok.
    + destruct (json_outcome r) as [data | e] eqn:Hjson; simpl; split.
      * discriminate.
      * intros [(e & H & _) | [(r' & H & H' & _) | (r' & e & H & _ & H' & _)]];
          try discriminate; injection H as <-; congruence.
      * intros [= <-]. right. right. exists r, e. auto.
      * intros [(e' & H & _) | [(r' & H & H' & _) | (r' & e' & H & _ & H' & ->)]];
          try discriminate; injection H as <-; congruence.
    + simpl; split.
      * intros [= <-]. right. left. exists r. auto.
      * intros [(e' & H & _) | [(r' & H & H' & ->) | (r' & e' & H & H' & _)]];
          try discriminate; try reflexivity; injection H as <-; congruence.
  - simpl; split.
    + intros [= <-]. left. exists e. auto.
    + intros [(e' & H & ->) | [(r' & H & _) | (r' & e' & H & _)]];
        try discriminate; injection H as <-; reflexivity.
Qed.

End Submission.

Lemma meanwhile_creative (env : Env) (X : Type) (op : Op X) (s : ViewState) :
  creative (meanwhile env X op s) = creative s.
Proof. apply meanwhile_keeps. Qed.

Lemma meanwhile_error (env : Env) (X : Type) (op : Op X) (s : ViewState) :
  error (meanwhile env X op s) = error s.
Proof. apply meanwhile_keeps. Qed.

(** The settled state, field by field. *)
Lemma submit_final (env : Env) (s : ViewState) :
  isLoading (final (submit env s)) = false
  /\ creative (final (submit env s)) =
       match respond env (generate_request s) with
       | Resolves r =>
           if ok r then
             match json_outcome r with
             | Resolves data => data
             | Rejects _ => JNull
             end
           else JNull
       | Rejects _ => JNull
       end
  /\ error (final (submit env s)) =
       match respond env (generate_request s) with
       | Resolves r =>
           if ok r then
             match json_outcome r with
             | Resolves _ => JStr ""
             | Rejects e => exn_message e
             end
           else JStr "Failed to generate creative."
       | Rejects e => exn_message e
       end.
Proof.
  rewrite submit_run.
  destruct (respond env (generate_request s)) as [r | e];
    [destruct (ok r); [destruct (json_outcome r) as [data | e] |] |];
    simpl; rewrite ?meanwhile_creative, ?meanwhile_error;
    repeat split; reflexivity.
Qed.

(** ** Pages *)

Arguments Number_toString : simpl never.

(** [App] never throws: the property reads of the results block run only
    on a truthy [creative]. *)
Lemma get_field_truthy (v : JsValue) (key : string) :
  truthy v = true -> exists x, get_field v key = Some x.
Proof.
  destruct v; simpl; try discriminate; intros _; eauto.
  destruct (lookup key fields); eauto.
Qed.

Lemma App_total (s : ViewState) : exists e, App s = Some e.
Proof.
  unfold App, and_then.
  destruct (truthy (error s)); destruct (truthy (creative s)) eqn:Hc; eauto.
  - unfold results_container.
    destruct (get_field_truthy _ "ad_copy_1" Hc) as (x1 & ->).
    destruct (get_field_truthy _ "ad_copy_2" Hc) as (x2 & ->).
    destruct (get_field_truthy _ "creative_brief" Hc) as (x3 & ->).
    destruct (get_field_truthy _ "performance_score" Hc) as (x4 & ->).
    eauto.
  - unfold results_container.
    destruct (get_field_truthy _ "ad_copy_1" Hc) as (x1 & ->).
    destruct (get_field_truthy _ "ad_copy_2" Hc) as (x2 & ->).
    destruct (get_field_truthy _ "creative_brief" Hc) as (x3 & ->).
    destruct (get_field_truthy _ "performance_score" Hc) as (x4 & ->).
    eauto.
Qed.

Lemma append_empty (t : string) : t ++ "" = t.
Proof. induction t as [| c t IH]; simpl; [| rewrite IH]; reflexivity. Qed.

(** The page of a state with an error message and no result. *)
Lemma page_of_failure (s : ViewState) (m : string) :
  error s = JStr m -> m <> "" -> creative s = JNull ->
  exists pg, page s = Some pg
             /\ error_texts pg = [m] /\ error_shown pg = true
             /\ result_cards pg = [] /\ results_shown pg = false
             /\ ctr_lines pg = [].
Proof.
  destruct s as [pn ta loc ld cr er]; simpl. intros -> Hm ->.
  apply String.eqb_neq in Hm.
  unfold page, App, and_then; simpl. rewrite Hm; simpl. rewrite Hm.
  destruct ld; eexists; (split; [reflexivity |]); repeat split;
    cbn; rewrite append_empty; reflexivity.
Qed.

(** The page of a state with neither. *)
Lemma page_of_silence (s : ViewState) :
  error s = JStr "" \/ error s = JUndefined -> creative s = JNull ->
  exists pg, page s = Some pg
             /\ error_texts pg = [] /\ error_shown pg = false
             /\ result_cards pg = [] /\ results_shown pg = false.
Proof.
  destruct s as [pn ta loc ld cr er]; simpl. intros [-> | ->] ->;
    destruct ld; eexists; (split; [reflexivity |]); repeat split.
Qed.

(* ===================================================================== *)
(** * Properties of the submit flow *)
(* ===================================================================== *)

(** ** The start of a submission *)

(** C6. At the start of every submission, before the outbound request is
    issued, the prior error and the prior result are cleared and the
    loading flag is set: when [handleSubmit] first yields, it waits for the
    request, the error is the empty string, the result is [null] and
    [isLoading] is [true]; every run begins with these three setters,
    followed by the request. *)
Theorem C6_cleared_before_request (env : Env) (s : ViewState) :
  waiting_on (snd (submit_start s)) = Some (generate_request s)
  /\ error (fst (submit_start s)) = JStr ""
  /\ creative (fst (submit_start s)) = JNull
  /\ isLoading (fst (submit_start s)) = true
  /\ error_present (fst (submit_start s)) = false
  /\ result_present (fst (submit_start s)) = false
  /\ firstn 5 (trace (submit env s)) =
       [Did PreventDefault; Did (SetIsLoading true); Did (SetError (JStr ""));
        Did (SetCreative JNull); Awaited (Fetch (generate_request s))].
Proof.
  repeat split.
Qed.

(** C5. Submitting sets [isLoading] to [true] in the synchronous part of
    the handler and to [false] after settlement; the [finally] step is the
    last thing every run does, on the success path and on the failure path
    alike, and the handler always completes normally: no exception escapes
    it.  This holds for every state of the form, so for every pair of
    non-empty inputs. *)
Theorem C5_loading_lifecycle (env : Env) (s : ViewState) :
  isLoading (fst (submit_start s)) = true
  /\ isLoading (final (submit env s)) = false
  /\ last (trace (submit env s)) (Did PreventDefault) = Did (SetIsLoading false)
  /\ completion (submit env s) = Normal tt.
Proof.
  split; [reflexivity |]. split; [apply submit_final |].
  rewrite submit_run.
  destruct (respond env (generate_request s)) as [r | e];
    [destruct (ok r); [destruct (json_outcome r) |] |]; split; reflexivity.
Qed.

(** ** The request *)

Lemma append_assoc (a b c : string) : (a ++ b) ++ c = a ++ (b ++ c).
Proof. induction a as [| x a IH]; simpl; [| rewrite IH]; reflexivity. Qed.

(** A string of plain characters is written between the quotes as it is. *)
Lemma quote_chars_plain (t : string) : plain t = true -> quote_chars t = t.
Proof.
  induction t as [| c t IH]; simpl; [reflexivity |].
  intros H. apply andb_true_iff in H as [Hc Ht]. rewrite (IH Ht).
  unfold plain_char in Hc.
  apply andb_true_iff in Hc as [Hc Hctl]. apply andb_true_iff in Hc as [Hq Hb].
  apply negb_true_iff in Hq, Hb, Hctl.
  unfold quote_char. rewrite Hq, Hb.
  apply Nat.ltb_ge in Hctl.
  destruct (Nat.eqb_spec (nat_of_ascii c) 8) as [E | _]; [rewrite E in Hctl; lia |].
  destruct (Nat.eqb_spec (nat_of_ascii c) 9) as [E | _]; [rewrite E in Hctl; lia |].
  destruct (Nat.eqb_spec (nat_of_ascii c) 10) as [E | _]; [rewrite E in Hctl; lia |].
  destruct (Nat.eqb_spec (nat_of_ascii c) 12) as [E | _]; [rewrite E in Hctl; lia |].
  destruct (Nat.eqb_spec (nat_of_ascii c) 13) as [E | _]; [rewrite E in Hctl; lia |].
  destruct (Nat.ltb_spec (nat_of_ascii c) 32) as [E | _]; [lia |].
  reflexivity.
Qed.

(** Reading back what was written for one character gives that character. *)
Lemma unquote_quote_char (c : ascii) (tail : string) :
  unquote_chars (quote_char c ++ tail) = and_more c (unquote_chars tail).
Proof.
  destruct c as [[] [] [] [] [] [] [] []]; reflexivity.
Qed.

(** Reading back what was written between the quotes gives the string that
    was written, whatever characters it holds. *)
Lemma unquote_quote_chars (t rest : string) :
  unquote_chars (quote_chars t ++ String dquote rest) = Some (t, rest).
Proof.
  induction t as [| c t IH]; [reflexivity |].
  cbn [quote_chars]. rewrite append_assoc, unquote_quote_char, IH. reflexivity.
Qed.

(** The escapes of [JSON.stringify], on a sample with a quote, a backslash,
    a line feed, a tab and a control character. *)
Example quote_chars_escapes :
  quote_chars (String dquote
                 (String "\" (String (ascii_of_nat 10) (String (ascii_of_nat 9)
                    (String (ascii_of_nat 1) "e")))))
  = String "\" (String dquote "\\\n\t\u0001e").
Proof. reflexivity. Qed.

(** C7. Every submission issues exactly one request: a POST to the fixed
    path [/generate], with the JSON content type and with the JSON text of
    [{ program_name, target_audience, localize }] built from the three
    input fields; [localize] is written [true] when the checkbox the form
    shows is checked and [false] when it is not, and ticking the checkbox
    sets the field that is sent.  The text of the body is given character
    by character: the three keys in this order, each value of a text field
    between quotes, which reads back as the field whatever characters it
    holds and is the field itself when it holds plain characters only. *)
Theorem C7_one_post_request (env : Env) (s : ViewState) :
  requests (trace (submit env s)) = [generate_request s]
  /\ method (generate_request s) = "POST"
  /\ url (generate_request s) = "http://127.0.0.1:8000" ++ "/generate"
  /\ headers (generate_request s) = [("Content-Type", "application/json")]
  /\ body (generate_request s) =
       Some ("{" ++ join ","
                      [quote "program_name" ++ ":" ++ quote (programName s);
                       quote "target_audience" ++ ":" ++ quote (targetAudience s);
                       quote "localize" ++ ":" ++
                         (if isLocalized s then "true" else "false")]
                 ++ "}")
  /\ body (generate_request s) =
       Some ("{" ++ String dquote "program_name" ++ String dquote ":"
                 ++ String dquote (quote_chars (programName s))
                 ++ String dquote ","
                 ++ String dquote "target_audience" ++ String dquote ":"
                 ++ String dquote (quote_chars (targetAudience s))
                 ++ String dquote ","
                 ++ String dquote "localize" ++ String dquote ":"
                 ++ (if isLocalized s then "true" else "false")
                 ++ "}")
  /\ (forall rest,
        unquote_chars (quote_chars (programName s) ++ String dquote rest)
        = Some (programName s, rest)
        /\ unquote_chars (quote_chars (targetAudience s) ++ String dquote rest)
           = Some (targetAudience s, rest))
  /\ (plain (programName s) = true -> plain (targetAudience s) = true ->
      body (generate_request s) =
        Some ("{" ++ String dquote "program_name" ++ String dquote ":"
                  ++ String dquote (programName s)
                  ++ String dquote ","
                  ++ String dquote "target_audience" ++ String dquote ":"
                  ++ String dquote (targetAudience s)
                  ++ String dquote ","
                  ++ String dquote "localize" ++ String dquote ":"
                  ++ (if isLocalized s then "true" else "false")
                  ++ "}"))
  /\ checkboxes (form s) = [Some (PBool (isLocalized s))]
  /\ (forall checked, isLocalized (apply_edit s (TickLocalized checked)) = checked).
Proof.
  assert (Hbody :
            body (generate_request s) =
            Some ("{" ++ String dquote "program_name" ++ String dquote ":"
                      ++ String dquote (quote_chars (programName s))
                      ++ String dquote ","
                      ++ String dquote "target_audience" ++ String dquote ":"
                      ++ String dquote (quote_chars (targetAudience s))
                      ++ String dquote ","
                      ++ String dquote "localize" ++ String dquote ":"
                      ++ (if isLocalized s then "true" else "false")
                      ++ "}")).
  { unfold generate_request, body, JSON_stringify, quote, join.
    f_equal.
    change (quote_chars "program_name") with "program_name".
    change (quote_chars "target_audience") with "target_audience".
    change (quote_chars "localize") with "localize".
    cbn [append]. repeat (rewrite append_assoc; cbn [append]).
    destruct (isLocalized s); reflexivity. }
  split.
  { rewrite submit_run.
    destruct (respond env (generate_request s)) as [r | e];
      [destruct (ok r); [destruct (json_outcome r) |] |]; reflexivity. }
  split; [reflexivity |]. split; [reflexivity |]. split; [reflexivity |].
  split; [reflexivity |]. split; [exact Hbody |].
  split; [intros rest; split; apply unquote_quote_chars |].
  split; [| split; [reflexivity | intros checked; reflexivity]].
  intros Hpn Hta. rewrite Hbody.
  rewrite (quote_chars_plain _ Hpn), (quote_chars_plain _ Hta). reflexivity.
Qed.

(** The body of the request for the sample form, as it goes on the wire. *)
Lemma C7_witness :
  body (generate_request filled) =
    Some ("{" ++ String dquote "program_name" ++ String dquote ":"
              ++ String dquote "Data Science Master's"
              ++ String dquote ","
              ++ String dquote "target_audience" ++ String dquote ":"
              ++ String dquote "Working professionals in Bangalore"
              ++ String dquote ","
              ++ String dquote "localize" ++ String dquote ":true}").
Proof.
  destruct (C7_one_post_request server_error filled)
    as (_ & _ & _ & _ & _ & _ & _ & Hplain & _).
  apply Hplain; reflexivity.
Defined.

(** ** Failures *)

(** The settled state after a throw of the request path. *)
Lemma failure_settles (env : Env) (s : ViewState) (v : JsValue) :
  throws env s v ->
  exists m, get_field v "message" = Some m
            /\ error (final (submit env s)) = m
            /\ creative (final (submit env s)) = JNull
            /\ isLoading (final (submit env s)) = false.
Proof.
  intros Hv. apply throws_cases in Hv.
  destruct (submit_final env s) as (Hl & Hc & He).
  destruct Hv as [(e & Hr & ->) | [(r & Hr & Hok & ->) | (r & e & Hr & Hok & Hj & ->)]];
    rewrite Hr in Hc, He; try rewrite Hok in Hc, He; try rewrite Hj in Hc, He;
    eexists; (split; [reflexivity |]); auto.
Qed.

(** C4. After a response with a non-success status the error is exactly
    ["Failed to generate creative."], whatever the body of the response
    holds (the handler never reads it), no result is stored, and the page
    shows that error text and no result card. *)
Theorem C4_generic_error_on_bad_status (env : Env) (s : ViewState) (r : Response) :
  respond env (generate_request s) = Resolves r ->
  ok r = false ->
  error (final (submit env s)) = JStr "Failed to generate creative."
  /\ creative (final (submit env s)) = JNull
  /\ bodies_read (trace (submit env s)) = []
  /\ exists pg, page (final (submit env s)) = Some pg
                /\ error_texts pg = ["Failed to generate creative."]
                /\ result_cards pg = []
                /\ results_shown pg = false.
Proof.
  intros Hr Hok.
  destruct (submit_final env s) as (_ & Hc & He).
  rewrite Hr, Hok in Hc, He.
  repeat split; trivial.
  - rewrite submit_run, Hr, Hok. reflexivity.
  - destruct (page_of_failure (final (submit env s)) "Failed to generate creative.")
      as (pg & Hpg & Ht & _ & Hcards & Hshown & _); trivial; [discriminate |].
    exists pg. auto.
Qed.

Lemma C4_witness :
  error (final (submit server_error filled)) = JStr "Failed to generate creative."
  /\ creative (final (submit server_error filled)) = JNull
  /\ bodies_read (trace (submit server_error filled)) = []
  /\ exists pg, page (final (submit server_error filled)) = Some pg
                /\ error_texts pg = ["Failed to generate creative."]
                /\ result_cards pg = []
                /\ results_shown pg = false.
Proof.
  apply (C4_generic_error_on_bad_status server_error filled
           {| status := 500;
              json_outcome := Resolves (JObj [("detail", JStr "model overloaded")]) |});
    reflexivity.
Defined.

(** C3. Whenever the request path throws (a rejected [fetch], a non-success
    status or a body that fails to parse), the [message] of what was thrown
    is stored as the error and the result stays [null]; when that message
    is ["network down"], the page shows the error text ["network down"]. *)
Theorem C3_failure_message_stored (env : Env) (s : ViewState) (v : JsValue) :
  throws env s v ->
  get_field v "message" = Some (error (final (submit env s)))
  /\ creative (final (submit env s)) = JNull
  /\ result_present (final (submit env s)) = false
  /\ (get_field v "message" = Some (JStr "network down") ->
      option_map error_texts (page (final (submit env s))) = Some ["network down"]).
Proof.
  intros Hv. destruct (failure_settles env s v Hv) as (m & Hm & He & Hc & _).
  subst m. repeat split; trivial.
  - unfold result_present. rewrite Hc. reflexivity.
  - intros Hdown. rewrite Hm in Hdown. injection Hdown as Hdown.
    destruct (page_of_failure (final (submit env s)) "network down")
      as (pg & Hpg & Ht & _); trivial; [discriminate |].
    rewrite Hpg. simpl. rewrite Ht. reflexivity.
Qed.

Lemma C3_witness :
  throws network_down filled
    (exn_value {| exn_name := "TypeError"; exn_message := JStr "network down" |})
  /\ error (final (submit network_down filled)) = JStr "network down"
  /\ creative (final (submit network_down filled)) = JNull
  /\ option_map error_texts (page (final (submit network_down filled)))
     = Some ["network down"].
Proof.
  assert (H : throws network_down filled
                (exn_value {| exn_name := "TypeError";
                              exn_message := JStr "network down" |}))
    by reflexivity.
  destruct (C3_failure_message_stored network_down filled _ H) as (Hm & Hc & _ & Hpage).
  split; [exact H |]. split; [reflexivity |]. split; [exact Hc |].
  apply Hpage. reflexivity.
Defined.

(** C9. When the request path throws something whose [message] is the empty
    string or is absent, the error state receives that empty value and the
    page shows neither the error block nor the result grid. *)
Theorem C9_empty_message_shows_nothing
    (env : Env) (s : ViewState) (v m : JsValue) :
  throws env s v ->
  get_field v "message" = Some m ->
  m = JStr "" \/ m = JUndefined ->
  error (final (submit env s)) = m
  /\ exists pg, page (final (submit env s)) = Some pg
                /\ error_shown pg = false /\ results_shown pg = false
                /\ error_texts pg = [] /\ result_cards pg = [].
Proof.
  intros Hv Hm Hempty.
  destruct (failure_settles env s v Hv) as (m' & Hm' & He & Hc & _).
  assert (m' = m) as -> by congruence.
  split; [exact He |].
  destruct (page_of_silence (final (submit env s))) as (pg & Hpg & Ht & Hs & Hcards & Hr);
    trivial.
  - rewrite He. exact Hempty.
  - exists pg. auto.
Qed.

Lemma C9_witness :
  error (final (submit silent_failure filled)) = JStr ""
  /\ exists pg, page (final (submit silent_failure filled)) = Some pg
                /\ error_shown pg = false /\ results_shown pg = false
                /\ error_texts pg = [] /\ result_cards pg = [].
Proof.
  apply (C9_empty_message_shows_nothing silent_failure filled
           (exn_value {| exn_name := "Error"; exn_message := JStr "" |}) (JStr ""));
    [reflexivity | reflexivity | left; reflexivity].
Defined.

(** C2, as the code has it.  A success response whose body does not parse
    makes [response.json()] reject inside the [try] block: the [catch]
    block stores the message of the parse failure as the error, the result
    stays [null], loading ends and the handler completes normally. *)
Theorem C2_parse_failure_is_caught
    (env : Env) (s : ViewState) (r : Response) (e : Exception) :
  respond env (generate_request s) = Resolves r ->
  ok r = true ->
  json_outcome r = Rejects e ->
  completion (submit env s) = Normal tt
  /\ error (final (submit env s)) = exn_message e
  /\ creative (final (submit env s)) = JNull
  /\ isLoading (final (submit env s)) = false.
Proof.
  intros Hr Hok Hj.
  destruct (submit_final env s) as (Hl & Hc & He).
  rewrite Hr, Hok, Hj in Hc, He.
  split; [| auto].
  rewrite submit_run, Hr, Hok, Hj. reflexivity.
Qed.

Lemma C2_witness :
  completion (submit ok_malformed filled) = Normal tt
  /\ error (final (submit ok_malformed filled))
     = JStr "Unexpected token < in JSON at position 0"
  /\ creative (final (submit ok_malformed filled)) = JNull
  /\ isLoading (final (submit ok_malformed filled)) = false.
Proof.
  apply (C2_parse_failure_is_caught ok_malformed filled
           {| status := 200; json_outcome := Rejects syntax_error |} syntax_error);
    reflexivity.
Defined.

(** C2 as stated fails: for HTTP 200 with a body that is not JSON nothing
    propagates out of the handler, and the message of the parse failure is
    stored as the error. *)
Lemma C2_counterexample :
  ok {| status := 200; json_outcome := Rejects syntax_error |} = true
  /\ (forall v, completion (submit ok_malformed initial) <> Thrown v)
  /\ error (final (submit ok_malformed initial))
     = JStr "Unexpected token < in JSON at position 0".
Proof.
  split; [reflexivity |]. split; [| reflexivity].
  intros v. discriminate.
Qed.

(** ** Results *)

(** C8. After a success response with the body
    [{ad_copy_1:"A", ad_copy_2:"B", creative_brief:"C", performance_score:12.5}]
    the page shows exactly three result cards, titled ["Ad Copy 1"],
    ["Ad Copy 2"] and ["Creative Brief"] with contents ["A"], ["B"] and
    ["C"], the line ["Predicted Click-Through Rate (CTR): 12.5%"], and no
    error. *)
Theorem C8_sample_result_page (env : Env) (s : ViewState) (r : Response) :
  respond env (generate_request s) = Resolves r ->
  ok r = true ->
  json_outcome r = Resolves sample_body ->
  exists pg, page (final (submit env s)) = Some pg
             /\ result_cards pg =
                  [("Ad Copy 1", "A"); ("Ad Copy 2", "B"); ("Creative Brief", "C")]
             /\ ctr_lines pg = ["Predicted Click-Through Rate (CTR): 12.5%"]
             /\ error_texts pg = []
             /\ error_shown pg = false.
Proof.
  intros Hr Hok Hj.
  destruct (submit_final env s) as (Hl & Hc & He).
  rewrite Hr, Hok, Hj in Hc, He.
  destruct (final (submit env s)) as [pn ta loc ld cr er].
  simpl in Hl, Hc, He. subst ld cr er.
  eexists. split; [vm_compute; reflexivity |].
  repeat split.
Qed.

Lemma C8_witness :
  exists pg, page (final (submit ok_sample filled)) = Some pg
             /\ result_cards pg =
                  [("Ad Copy 1", "A"); ("Ad Copy 2", "B"); ("Creative Brief", "C")]
             /\ ctr_lines pg = ["Predicted Click-Through Rate (CTR): 12.5%"]
             /\ error_texts pg = []
             /\ error_shown pg = false.
Proof.
  apply (C8_sample_result_page ok_sample filled
           {| status := 200; json_outcome := Resolves sample_body |});
    reflexivity.
Defined.

(** ** The settled state *)

(** C1 as stated fails: after HTTP 200 with the JSON body [null] the
    request has settled with neither a result nor an error. *)
Lemma C1_counterexample :
  ok {| status := 200; json_outcome := Resolves JNull |} = true
  /\ result_present (final (submit ok_null initial)) = false
  /\ error_present (final (submit ok_null initial)) = false
  /\ xorb (result_present (final (submit ok_null initial)))
          (error_present (final (submit ok_null initial))) = false.
Proof. repeat split. Qed.

(** C1, as the code has it.  For a submission that no other submission
    overlaps (while it is pending the user does nothing but edit the
    fields, which is what an environment of [submit] holds): when the
    request settles, the result and the error are never both present.  The
    result is present exactly when the response had a success status and
    its body parsed to a truthy value; the error is present exactly when
    the request path threw something with a truthy message.  Otherwise
    neither is present. *)
Theorem C1_settled_outcome (env : Env) (s : ViewState) :
  result_present (final (submit env s)) && error_present (final (submit env s)) = false
  /\ (result_present (final (submit env s)) = true <->
      exists r data, respond env (generate_request s) = Resolves r
                     /\ ok r = true
                     /\ json_outcome r = Resolves data
                     /\ truthy data = true)
  /\ (error_present (final (submit env s)) = true <->
      exists v m, throws env s v
                  /\ get_field v "message" = Some m
                  /\ truthy m = true).
Proof.
  unfold result_present, error_present.
  destruct (submit_final env s) as (_ & Hc & He). rewrite Hc, He. clear Hc He.
  split; [| split].
  - destruct (respond env (generate_request s)) as [r | e];
      [destruct (ok r); [destruct (json_outcome r) as [data | e] |] |];
      simpl; try reflexivity. apply andb_false_r.
  - split.
    + destruct (respond env (generate_request s)) as [r | e] eqn:Hr;
        [destruct (ok r) eqn:Hok; [destruct (json_outcome r) as [data | e] eqn:Hj |] |];
        simpl; try discriminate.
      intros Ht. exists r, data. auto.
    + intros (r & data & -> & -> & -> & Ht). exact Ht.
  - split.
    + destruct (respond env (generate_request s)) as [r | e] eqn:Hr;
        [destruct (ok r) eqn:Hok; [destruct (json_outcome r) as [data | e] eqn:Hj |] |];
        simpl; try discriminate; intros Ht.
      * exists (exn_value e), (exn_message e). split; [| split; trivial].
        apply throws_cases. right. right. exists r, e. auto.
      * exists (new_Error "Failed to generate creative."), (JStr "Failed to generate creative.").
        split; [| split; trivial].
        apply throws_cases. right. left. exists r. auto.
      * exists (exn_value e), (exn_message e). split; [| split; trivial].
        apply throws_cases. left. exists e. auto.
    + intros (v & m & Hv & Hm & Ht). apply throws_cases in Hv.
      destruct Hv as [(e & -> & ->) | [(r & -> & -> & ->) | (r & e & -> & -> & -> & ->)]];
        simpl in Hm; injection Hm as <-; exact Ht.
Qed.

(** ** The score line *)

(** C10 as stated fails: for a result whose [performance_score] is [null]
    the line shows no value at all, not the text [null]. *)
Lemma C10_counterexample :
  primitive_toString JNull = Some "null"
  /\ option_map ctr_lines (page (final (submit ok_null_score initial)))
     = Some ["Predicted Click-Through Rate (CTR): %"]
  /\ option_map ctr_lines (page (final (submit ok_null_score initial)))
     <> Some ["Predicted Click-Through Rate (CTR): null%"].
Proof.
  split; [reflexivity |].
  assert (H : option_map ctr_lines (page (final (submit ok_null_score initial)))
              = Some ["Predicted Click-Through Rate (CTR): %"])
    by (vm_compute; reflexivity).
  split; [exact H |]. rewrite H. discriminate.
Qed.

(** C10, as the code has it.  For a stored result, the line of the
    performance section holds the [performance_score] exactly as it was
    read, between the text and the percent sign: no rounding, clamping or
    validation.  On the page a number, whatever its range, shows as its
    string conversion and a string as it is, each followed by ["%"];
    [null], a missing score and a boolean show nothing before the ["%"];
    a plain object is refused by the renderer. *)
Theorem C10_score_interpolated_unchanged (s : ViewState) (e : Element) :
  App s = Some e ->
  result_present s = true ->
  exists score,
    get_field (creative s) "performance_score" = Some score
    /\ feedback_paragraphs e = [ctr_paragraph score]
    /\ match score with
       | JNum n =>
           option_map text_of (render (ctr_paragraph score))
           = Some ("Predicted Click-Through Rate (CTR): " ++ Number_toString n ++ "%")
       | JStr t =>
           option_map text_of (render (ctr_paragraph score))
           = Some ("Predicted Click-Through Rate (CTR): " ++ t ++ "%")
       | JNull | JUndefined | JBool _ =>
           option_map text_of (render (ctr_paragraph score))
           = Some "Predicted Click-Through Rate (CTR): %"
       | JObj _ => render (ctr_paragraph score) = None
       | JArr _ => True
       end.
Proof.
  unfold result_present. intros HApp Hc.
  destruct (get_field_truthy _ "ad_copy_1" Hc) as (x1 & H1).
  destruct (get_field_truthy _ "ad_copy_2" Hc) as (x2 & H2).
  destruct (get_field_truthy _ "creative_brief" Hc) as (x3 & H3).
  destruct (get_field_truthy _ "performance_score" Hc) as (score & H4).
  exists score. split; [exact H4 |]. split.
  - unfold App, and_then, results_container in HApp.
    rewrite Hc, H1, H2, H3, H4 in HApp.
    destruct (truthy (error s)); injection HApp as <-; reflexivity.
  - destruct score as [| | b | n | t | items | fields]; trivial.
    cbn. destruct (String.eqb_spec t "") as [-> | Hne]; reflexivity.
Qed.

Lemma C10_witness :
  exists e,
    App (final (submit ok_sample filled)) = Some e
    /\ exists score,
         get_field (creative (final (submit ok_sample filled))) "performance_score"
         = Some score
         /\ feedback_paragraphs e = [ctr_paragraph score]
         /\ match score with
            | JNum n =>
                option_map text_of (render (ctr_paragraph score))
                = Some ("Predicted Click-Through Rate (CTR): "
                        ++ Number_toString n ++ "%")
            | JStr t =>
                option_map text_of (render (ctr_paragraph score))
                = Some ("Predicted Click-Through Rate (CTR): " ++ t ++ "%")
            | JNull | JUndefined | JBool _ =>
                option_map text_of (render (ctr_paragraph score))
                = Some "Predicted Click-Through Rate (CTR): %"
            | JObj _ => render (ctr_paragraph score) = None
            | JArr _ => True
            end.
Proof.
  eexists. split.
  - reflexivity.
  - apply (C10_score_interpolated_unchanged (final (submit ok_sample filled)));
      reflexivity.
Defined.

(* ===================================================================== *)
(** * Further properties of the component *)
(* ===================================================================== *)

(** ** The form *)

(** X1. Evaluating the JSX of [App] never throws, whatever values the
    state holds: the property reads of the results block are guarded by the
    truthiness test.  The tree always contains the form, once, with the two
    text inputs showing the current field values and marked required, and
    the checkbox showing [isLocalized]. *)
Theorem X1_form_always_rendered (s : ViewState) :
  exists e, App s = Some e
            /\ forms e = [form s]
            /\ map (fun i => prop_of "value" (props_of i)) (text_inputs e)
               = [Some (PStr (programName s)); Some (PStr (targetAudience s))]
            /\ map (fun i => prop_of "required" (props_of i)) (text_inputs e)
               = [Some (PBool true); Some (PBool true)]
            /\ checkboxes e = [Some (PBool (isLocalized s))].
Proof.
  unfold App, and_then.
  destruct (truthy (error s)); destruct (truthy (creative s)) eqn:Hc;
    try (eexists; split; [reflexivity | repeat split]).
  - unfold results_container.
    destruct (get_field_truthy _ "ad_copy_1" Hc) as (x1 & ->).
    destruct (get_field_truthy _ "ad_copy_2" Hc) as (x2 & ->).
    destruct (get_field_truthy _ "creative_brief" Hc) as (x3 & ->).
    destruct (get_field_truthy _ "performance_score" Hc) as (x4 & ->).
    eexists; split; [reflexivity | repeat split].
  - unfold results_container.
    destruct (get_field_truthy _ "ad_copy_1" Hc) as (x1 & ->).
    destruct (get_field_truthy _ "ad_copy_2" Hc) as (x2 & ->).
    destruct (get_field_truthy _ "creative_brief" Hc) as (x3 & ->).
    destruct (get_field_truthy _ "performance_score" Hc) as (x4 & ->).
    eexists; split; [reflexivity | repeat split].
Qed.

(** The submit button of any tree of [App]. *)
Lemma buttons_of_App (s : ViewState) (e : Element) :
  App s = Some e ->
  buttons e =
  [Tag "button" [("type", PStr "submit"); ("disabled", PBool (isLoading s))]
     [text (if isLoading s then "Generating..." else "Generate Creatives")]].
Proof.
  unfold App, and_then, results_container.
  destruct (truthy (error s)); destruct (truthy (creative s));
    repeat match goal with
           | |- context [match get_field ?v ?k with _ => _ end] =>
               destruct (get_field v k)
           end;
    intros H; try discriminate; injection H as <-; reflexivity.
Qed.

(** X2. The submit control is disabled, and reads ["Generating..."], from
    the moment the handler first yields; once the request has settled, on
    success and on failure alike, it is enabled again and reads
    ["Generate Creatives"]. *)
Theorem X2_button_follows_loading (env : Env) (s : ViewState) :
  (exists e, App (fst (submit_start s)) = Some e
             /\ buttons e =
                [Tag "button" [("type", PStr "submit"); ("disabled", PBool true)]
                   [text "Generating..."]])
  /\ (exists e, App (final (submit env s)) = Some e
                /\ buttons e =
                   [Tag "button" [("type", PStr "submit"); ("disabled", PBool false)]
                      [text "Generate Creatives"]]).
Proof.
  split.
  - eexists. split; reflexivity.
  - destruct (App_total (final (submit env s))) as (e & He).
    exists e. split; [exact He |].
    rewrite (buttons_of_App _ _ He).
    destruct (submit_final env s) as (-> & _). reflexivity.
Qed.

(** ** Editing the fields *)

Lemma outcome_blocks_depend (s s' : ViewState) :
  error s = error s' -> creative s = creative s' ->
  option_map outcome_blocks (App s) = option_map outcome_blocks (App s').
Proof.
  intros He Hc. unfold App. rewrite He, Hc.
  destruct (and_then (error s') _) as [eb |]; [| reflexivity].
  destruct (and_then (creative s') _) as [rb |]; reflexivity.
Qed.

Lemma edits_keep (edits : list Edit) (s : ViewState) :
  isLoading (fold_left apply_edit edits s) = isLoading s
  /\ creative (fold_left apply_edit edits s) = creative s
  /\ error (fold_left apply_edit edits s) = error s.
Proof.
  revert s. induction edits as [| ed rest IH]; intros s; simpl.
  - repeat split.
  - destruct (IH (apply_edit s ed)) as (Hl & Hc & He).
    destruct (apply_edit_keeps s ed) as (Hl' & Hc' & He').
    repeat split; congruence.
Qed.

(** X3. Editing the inputs, any number of times, changes neither the stored
    result, nor the error, nor the loading flag, and leaves the error block
    and the results block of the tree as they were: what a submission left
    on the page stays there while the user types. *)
Theorem X3_edits_leave_outcome (edits : list Edit) (s : ViewState) :
  creative (fold_left apply_edit edits s) = creative s
  /\ error (fold_left apply_edit edits s) = error s
  /\ isLoading (fold_left apply_edit edits s) = isLoading s
  /\ option_map outcome_blocks (App (fold_left apply_edit edits s))
     = option_map outcome_blocks (App s).
Proof.
  destruct (edits_keep edits s) as (Hl & Hc & He).
  repeat split; trivial.
  apply outcome_blocks_depend; assumption.
Qed.

Lemma apply_edit_holds (s : ViewState) (ed : Edit) : holds (apply_edit s ed) ed.
Proof. destruct ed; reflexivity. Qed.

Lemma apply_edit_other (s : ViewState) (ed x : Edit) :
  same_field ed x = false -> holds s ed -> holds (apply_edit s x) ed.
Proof. destruct ed, x; simpl; intros Hs H; try discriminate; exact H. Qed.

(** X4. An input holds what was last put into it: edits to the other two
    inputs, in any number and order, leave it with the value of its own
    last edit. *)
Theorem X4_input_keeps_last_edit (s : ViewState) (ed : Edit) (later : list Edit) :
  forallb (fun x => negb (same_field ed x)) later = true ->
  holds (fold_left apply_edit later (apply_edit s ed)) ed.
Proof.
  intros Hlater.
  assert (H : holds (apply_edit s ed) ed) by apply apply_edit_holds.
  revert H. generalize (apply_edit s ed) as st. revert Hlater.
  induction later as [| x rest IH]; intros Hlater st H; simpl.
  - exact H.
  - simpl in Hlater. apply andb_true_iff in Hlater as [Hx Hrest].
    apply IH; [exact Hrest |].
    apply apply_edit_other; [| exact H].
    apply negb_true_iff. exact Hx.
Qed.

Lemma X4_witness :
  holds (fold_left apply_edit
           [TypeTargetAudience "Engineers"; TickLocalized true;
            TypeTargetAudience "Working professionals in Bangalore"]
           (apply_edit filled (TypeProgramName "MBA in Finance")))
        (TypeProgramName "MBA in Finance").
Proof.
  apply (X4_input_keeps_last_edit filled (TypeProgramName "MBA in Finance")).
  reflexivity.
Defined.

(** ** Submissions and the state around them *)

Lemma same_inputs_refl (s : ViewState) : same_inputs s s.
Proof. repeat split. Qed.

Lemma same_inputs_trans (a b c : ViewState) :
  same_inputs a b -> same_inputs b c -> same_inputs a c.
Proof. unfold same_inputs. intros (? & ? & ?) (? & ? & ?). repeat split; congruence. Qed.

Lemma apply_edit_same_inputs (s s' : ViewState) (ed : Edit) :
  same_inputs s s' -> same_inputs (apply_edit s ed) (apply_edit s' ed).
Proof. unfold same_inputs. intros (? & ? & ?). destruct ed; repeat split; assumption. Qed.

Lemma edits_same_inputs (edits : list Edit) (s s' : ViewState) :
  same_inputs s s' ->
  same_inputs (fold_left apply_edit edits s) (fold_left apply_edit edits s').
Proof.
  revert s s'. induction edits as [| ed rest IH]; intros s s' H; simpl.
  - exact H.
  - apply IH. apply apply_edit_same_inputs. exact H.
Qed.

(** The setters of [handleSubmit] do not touch the inputs. *)
Lemma outcome_setter_same_inputs (e : Effect) (s : ViewState) :
  match e with
  | SetIsLoading _ | SetCreative _ | SetError _ | PreventDefault => True
  | _ => False
  end ->
  same_inputs (apply_effect e s) s.
Proof. destruct e; intros H; try contradiction; repeat split. Qed.

(** X5. What the user types while a submission is pending is neither sent
    nor lost: the one request is the one built when the form was submitted,
    and when the request has settled the three inputs hold exactly what the
    edits made in the meantime put there. *)
Theorem X5_typing_while_pending (env : Env) (s : ViewState) :
  requests (trace (submit env s)) = [generate_request s]
  /\ same_inputs (final (submit env s))
                 (fold_left apply_edit (edits_during env s) s).
Proof.
  unfold edits_during. rewrite submit_run.
  assert (Hcleared :
            same_inputs
              (apply_effect (SetCreative JNull)
                 (apply_effect (SetError (JStr ""))
                    (apply_effect (SetIsLoading true)
                       (apply_effect PreventDefault s)))) s)
    by (repeat split).
  destruct (respond env (generate_request s)) as [r | e];
    [destruct (ok r); [destruct (json_outcome r) as [data | e] |] |];
    (split; [reflexivity |]);
    rewrite ?app_nil_r, ?fold_left_app; cbn [final];
    (eapply same_inputs_trans; [apply outcome_setter_same_inputs; exact I |]);
    (eapply same_inputs_trans; [apply outcome_setter_same_inputs; exact I |]);
    unfold meanwhile; repeat apply edits_same_inputs; exact Hcleared.
Qed.

(** X6. A submission starts from a clean slate: its whole run (the settled
    state, the completion and everything done on the way) depends on the
    three inputs and on the endpoint only, not on the result, the error or
    the loading flag the view held before.  In particular [handleSubmit]
    does not look at [isLoading]: called while a request is pending, it
    issues another one. *)
Theorem X6_prior_outcome_is_irrelevant (env : Env) (s s' : ViewState) :
  same_inputs s s' -> submit env s = submit env s'.
Proof.
  destruct s as [pn ta loc ld cr er], s' as [pn' ta' loc' ld' cr' er'].
  unfold same_inputs; simpl. intros (<- & <- & <-).
  rewrite !submit_run. reflexivity.
Qed.

Lemma X6_witness :
  submit network_down filled
  = submit network_down
      {| programName := "Data Science Master's";
         targetAudience := "Working professionals in Bangalore";
         isLocalized := true;
         isLoading := true;
         creative := JNull;
         error := JStr "" |}.
Proof.
  apply (X6_prior_outcome_is_irrelevant network_down filled). repeat split.
Defined.

(** X7. Every run of [handleSubmit] makes exactly six writes: the call of
    [preventDefault], the three that clear the view, one terminal write that
    is either [setCreative] or [setError] and never both, and last the
    [setIsLoading(false)] of the [finally] block. *)
Theorem X7_one_terminal_write (env : Env) (s : ViewState) :
  exists w,
    writes (trace (submit env s))
    = [PreventDefault; SetIsLoading true; SetError (JStr ""); SetCreative JNull;
       w; SetIsLoading false]
    /\ ((exists data, w = SetCreative data /\ creative (final (submit env s)) = data
                      /\ error (final (submit env s)) = JStr "")
        \/ (exists m, w = SetError m /\ error (final (submit env s)) = m
                      /\ creative (final (submit env s)) = JNull)).
Proof.
  destruct (submit_final env s) as (_ & Hc & He). rewrite Hc, He.
  rewrite submit_run.
  destruct (respond env (generate_request s)) as [r | e];
    [destruct (ok r); [destruct (json_outcome r) as [data | e] |] |];
    eexists; (split; [reflexivity |]); eauto.
Qed.

(** ** Results of every shape *)

(** The settled state after a success response, as a record. *)
Lemma success_settles (env : Env) (s : ViewState) (r : Response) (data : JsValue) :
  respond env (generate_request s) = Resolves r ->
  ok r = true ->
  json_outcome r = Resolves data ->
  exists pn ta loc,
    final (submit env s)
    = {| programName := pn; targetAudience := ta; isLocalized := loc;
         isLoading := false; creative := data; error := JStr "" |}.
Proof.
  intros Hr Hok Hj.
  destruct (submit_final env s) as (Hl & Hc & He).
  rewrite Hr, Hok, Hj in Hc, He.
  destruct (final (submit env s)) as [pn ta loc ld cr er].
  simpl in Hl, Hc, He. subst. eauto.
Qed.

(** X8. A success body that parses to a falsy value stores no visible
    result: the page shows neither the results block nor an error.  The
    value itself takes the place of the block, so [null], [false] and the
    empty string leave nothing, while the number zero is printed as the
    stray text ["0"]. *)
Theorem X8_falsy_body (env : Env) (s : ViewState) (r : Response) (data : JsValue) :
  respond env (generate_request s) = Resolves r ->
  ok r = true ->
  json_outcome r = Resolves data ->
  truthy data = false ->
  exists pg, page (final (submit env s)) = Some pg
             /\ results_shown pg = false
             /\ error_shown pg = false
             /\ result_cards pg = []
             /\ main_texts pg = match data with
                                | JNum n => [Number_toString n]
                                | _ => []
                                end.
Proof.
  intros Hr Hok Hj Hfalsy.
  destruct (success_settles env s r data Hr Hok Hj) as (pn & ta & loc & ->).
  destruct data as [| | b | n | t | items | fields]; simpl in Hfalsy;
    try discriminate.
  - eexists. split; [reflexivity | repeat split].
  - eexists. split; [reflexivity | repeat split].
  - subst b. eexists. split; [reflexivity | repeat split].
  - destruct n; try discriminate; eexists; (split; [reflexivity | repeat split]).
  - apply negb_false_iff, String.eqb_eq in Hfalsy. subst t.
    eexists. split; [reflexivity | repeat split].
Qed.

Lemma X8_witness :
  exists pg, page (final (submit (http 200 (Resolves (JNum (Zero false)))) filled))
             = Some pg
             /\ results_shown pg = false
             /\ error_shown pg = false
             /\ result_cards pg = []
             /\ main_texts pg = ["0"].
Proof.
  apply (X8_falsy_body (http 200 (Resolves (JNum (Zero false)))) filled
           {| status := 200; json_outcome := Resolves (JNum (Zero false)) |}
           (JNum (Zero false)));
    reflexivity.
Defined.

Lemma render_primitive (v : JsValue) :
  primitive v = true ->
  (render_value v = Some [] /\ shown_value v = "")
  \/ render_value v = Some [Text (shown_value v)].
Proof.
  destruct v as [| | b | n | t | items | fields]; simpl; try discriminate; auto.
  intros _. destruct (String.eqb_spec t "") as [-> | _]; auto.
Qed.

(** X9. For a truthy success body whose four fields read by the view are
    each a string, a number, a boolean, [null] or missing, the page shows
    exactly three cards with the fixed titles: each card shows the string
    found under its key unchanged, the string conversion of a number, and
    nothing for a missing key, [null] or a boolean; the score line shows
    the score the same way between the text and the percent sign, and no
    error is shown.  This covers a body that is not an object at all. *)
Theorem X9_cards_show_what_was_sent
    (env : Env) (s : ViewState) (r : Response) (data : JsValue)
    (copy1 copy2 brief score : JsValue) :
  respond env (generate_request s) = Resolves r ->
  ok r = true ->
  json_outcome r = Resolves data ->
  truthy data = true ->
  get_field data "ad_copy_1" = Some copy1 ->
  get_field data "ad_copy_2" = Some copy2 ->
  get_field data "creative_brief" = Some brief ->
  get_field data "performance_score" = Some score ->
  primitive copy1 && primitive copy2 && primitive brief && primitive score = true ->
  exists pg, page (final (submit env s)) = Some pg
             /\ result_cards pg =
                  [("Ad Copy 1", shown_value copy1);
                   ("Ad Copy 2", shown_value copy2);
                   ("Creative Brief", shown_value brief)]
             /\ ctr_lines pg =
                  ["Predicted Click-Through Rate (CTR): "
                   ++ shown_value score ++ "%"]
             /\ results_shown pg = true
             /\ error_shown pg = false.
Proof.
  intros Hr Hok Hj Ht H1 H2 H3 H4 Hp.
  apply andb_true_iff in Hp as [Hp P4]. apply andb_true_iff in Hp as [Hp P3].
  apply andb_true_iff in Hp as [P1 P2].
  destruct (success_settles env s r data Hr Hok Hj) as (pn & ta & loc & ->).
  unfold page, App, and_then, results_container; simpl.
  rewrite Ht, H1, H2, H3, H4. cbn.
  destruct (render_primitive copy1 P1) as [[E1 S1] | E1]; rewrite E1;
    destruct (render_primitive copy2 P2) as [[E2 S2] | E2]; rewrite E2;
    destruct (render_primitive brief P3) as [[E3 S3] | E3]; rewrite E3;
    destruct (render_primitive score P4) as [[E4 S4] | E4]; rewrite E4;
    (eexists; split; [reflexivity |]);
    cbn; rewrite ?S1, ?S2, ?S3, ?S4, ?append_empty; repeat split.
Qed.

(** A body with one of the keys only, and a body that is a string. *)
Lemma X9_witness :
  (exists pg,
     page (final (submit (http 200 (Resolves (JObj [("ad_copy_1", JStr "A")])))
                         filled)) = Some pg
     /\ result_cards pg =
          [("Ad Copy 1", "A"); ("Ad Copy 2", ""); ("Creative Brief", "")]
     /\ ctr_lines pg = ["Predicted Click-Through Rate (CTR): %"]
     /\ results_shown pg = true
     /\ error_shown pg = false)
  /\ (exists pg,
        page (final (submit (http 200 (Resolves (JStr "hello"))) filled)) = Some pg
        /\ result_cards pg =
             [("Ad Copy 1", ""); ("Ad Copy 2", ""); ("Creative Brief", "")]
        /\ ctr_lines pg = ["Predicted Click-Through Rate (CTR): %"]
        /\ results_shown pg = true
        /\ error_shown pg = false).
Proof.
  split.
  - apply (X9_cards_show_what_was_sent
             (http 200 (Resolves (JObj [("ad_copy_1", JStr "A")]))) filled
             {| status := 200;
                json_outcome := Resolves (JObj [("ad_copy_1", JStr "A")]) |}
             (JObj [("ad_copy_1", JStr "A")])
             (JStr "A") JUndefined JUndefined JUndefined);
      reflexivity.
  - apply (X9_cards_show_what_was_sent
             (http 200 (Resolves (JStr "hello"))) filled
             {| status := 200; json_outcome := Resolves (JStr "hello") |}
             (JStr "hello")
             JUndefined JUndefined JUndefined JUndefined);
      reflexivity.
Defined.

(** ** Overlapping submissions *)

(** Resuming a submission step by step, with nothing happening in between,
    ends in the state of the whole run. *)
Lemma stepwise_run (env : Env) (s : ViewState) :
  (forall X op, typing env X op = []) ->
  let first := submit_start s in
  let second := resume env (snd first) (fst first) in
  let third := resume env (snd second) (fst second) in
  fst third = final (submit env s) /\ finished (snd third) = true.
Proof.
  intros Hquiet. rewrite submit_run. cbv zeta.
  unfold meanwhile. rewrite !Hquiet.
  unfold submit_start, resume. cbn -[generate_request].
  destruct (respond env (generate_request s)) as [r | e]; cbn -[generate_request].
  - destruct (ok r); cbn -[generate_request].
    + rewrite Hquiet. destruct (json_outcome r) as [data | e]; split; reflexivity.
    + split; reflexivity.
  - split; reflexivity.
Qed.

(** X10. [handleSubmit] keeps no track of which request is the latest.  When
    a second submission is made while the first is pending, and the second
    settles with a result before the first fails, the late failure writes
    its message over the cleared error and leaves the newer result in place:
    the view ends with both a result and an error, and it had stopped
    loading while the first request was still pending. *)
Theorem X10_late_failure_joins_newer_result
    (slow fast : Env) (s : ViewState) (e : Exception) (r : Response) (data : JsValue) :
  respond slow (generate_request s) = Rejects e ->
  respond fast (generate_request s) = Resolves r ->
  ok r = true ->
  json_outcome r = Resolves data ->
  let first := submit_start s in
  let second := start apply_effect (handleSubmit (fst first)) (fst first) in
  let second_fetched := resume fast (snd second) (fst second) in
  let second_done := resume fast (snd second_fetched) (fst second_fetched) in
  let first_done := resume slow (snd first) (fst second_done) in
  finished (snd second_done) = true
  /\ isLoading (fst second_done) = false
  /\ finished (snd first) = false
  /\ finished (snd first_done) = true
  /\ creative (fst first_done) = data
  /\ error (fst first_done) = exn_message e
  /\ isLoading (fst first_done) = false
  /\ (truthy data = true -> truthy (exn_message e) = true ->
      result_present (fst first_done) && error_present (fst first_done) = true).
Proof.
  intros Hslow Hfast Hok Hj. cbv zeta.
  unfold submit_start, resume.
  cbn -[generate_request].
  change (generate_request
            {| programName := programName s; targetAudience := targetAudience s;
               isLocalized := isLocalized s; isLoading := true;
               creative := JNull; error := JStr "" |})
    with (generate_request s).
  rewrite Hfast. cbn -[generate_request]. rewrite Hok. cbn -[generate_request].
  rewrite Hj. cbn -[generate_request]. rewrite Hslow. cbn -[generate_request].
  repeat split.
  unfold result_present, error_present; cbn. intros -> ->. reflexivity.
Qed.

Lemma X10_witness :
  let first := submit_start filled in
  let second := start apply_effect (handleSubmit (fst first)) (fst first) in
  let second_fetched := resume ok_sample (snd second) (fst second) in
  let second_done := resume ok_sample (snd second_fetched) (fst second_fetched) in
  let first_done := resume network_down (snd first) (fst second_done) in
  creative (fst first_done) = sample_body
  /\ error (fst first_done) = JStr "network down"
  /\ result_present (fst first_done) && error_present (fst first_done) = true.
Proof.
  destruct (X10_late_failure_joins_newer_result network_down ok_sample filled
              {| exn_name := "TypeError"; exn_message := JStr "network down" |}
              {| status := 200; json_outcome := Resolves sample_body |}
              sample_body eq_refl eq_refl eq_refl eq_refl)
    as (_ & _ & _ & _ & Hc & He & _ & Hboth).
  split; [exact Hc |]. split; [exact He |].
  apply Hboth; reflexivity.
Defined.

(** ** Results that cannot be shown *)

Lemma render_children_none (name : string) (props : list (string * PropValue))
    (before after : list Element) (x : Element) :
  render x = None -> render (Tag name props (before ++ x :: after)%list) = None.
Proof.
  intros Hx. simpl.
  induction before as [| b rest IH]; simpl.
  - rewrite Hx. reflexivity.
  - destruct (render b); [| reflexivity].
    match type of IH with
    | match ?g with _ => _ end = None => destruct g; [discriminate IH | reflexivity]
    end.
Qed.

(** X11. The shape of a result is not checked before it is stored.  When a
    success body holds a plain object under one of the four keys the view
    reads, the handler still completes normally and stores the body with no
    error, and it is the rendering of the stored result that fails: no page
    is produced. *)
Theorem X11_object_field_breaks_rendering
    (env : Env) (s : ViewState) (r : Response) (data : JsValue)
    (key : string) (fields : list (string * JsValue)) :
  respond env (generate_request s) = Resolves r ->
  ok r = true ->
  json_outcome r = Resolves data ->
  In key ["ad_copy_1"; "ad_copy_2"; "creative_brief"; "performance_score"] ->
  get_field data key = Some (JObj fields) ->
  completion (submit env s) = Normal tt
  /\ creative (final (submit env s)) = data
  /\ error (final (submit env s)) = JStr ""
  /\ (exists e, App (final (submit env s)) = Some e)
  /\ page (final (submit env s)) = None.
Proof.
  intros Hr Hok Hj Hkey Hobj.
  assert (Hdone : completion (submit env s) = Normal tt)
    by (rewrite submit_run, Hr, Hok, Hj; reflexivity).
  destruct (success_settles env s r data Hr Hok Hj) as (pn & ta & loc & Hfinal).
  rewrite Hfinal. split; [exact Hdone |]. split; [reflexivity |].
  split; [reflexivity |]. split; [apply App_total |].
  assert (Ht : truthy data = true).
  { destruct data; simpl in Hobj; try discriminate; reflexivity. }
  destruct (get_field_truthy data "ad_copy_1" Ht) as (x1 & H1).
  destruct (get_field_truthy data "ad_copy_2" Ht) as (x2 & H2).
  destruct (get_field_truthy data "creative_brief" Ht) as (x3 & H3).
  destruct (get_field_truthy data "performance_score" Ht) as (x4 & H4).
  unfold page, App, and_then, results_container; simpl.
  rewrite Ht, H1, H2, H3, H4.
  set (frm := form _).
  apply (render_children_none "div" _ [Tag "header" _ _] []).
  apply (render_children_none "main" _ [frm; Child (JStr "")] []).
  simpl in Hkey.
  destruct Hkey as [<- | [<- | [<- | [<- | []]]]].
  - assert (x1 = JObj fields) as -> by congruence.
    apply (render_children_none "div" _ [Tag "h2" _ _] [_]).
    apply (render_children_none "div" _ [] [_; _]).
    apply (render_children_none "div" _ [Tag "h4" _ _] []).
    reflexivity.
  - assert (x2 = JObj fields) as -> by congruence.
    apply (render_children_none "div" _ [Tag "h2" _ _] [_]).
    apply (render_children_none "div" _ [_] [_]).
    apply (render_children_none "div" _ [Tag "h4" _ _] []).
    reflexivity.
  - assert (x3 = JObj fields) as -> by congruence.
    apply (render_children_none "div" _ [Tag "h2" _ _] [_]).
    apply (render_children_none "div" _ [_; _] []).
    apply (render_children_none "div" _ [Tag "h4" _ _] []).
    reflexivity.
  - assert (x4 = JObj fields) as -> by congruence.
    apply (render_children_none "div" _ [Tag "h2" _ _; _] []).
    apply (render_children_none "div" _ [Tag "h3" _ _] []).
    apply (render_children_none "p" _ [_] [_]).
    reflexivity.
Qed.

Lemma X11_witness :
  completion (submit (http 200 (Resolves (JObj [("ad_copy_1", JObj [("en", JStr "A")])])))
                     filled) = Normal tt
  /\ page (final (submit (http 200 (Resolves (JObj [("ad_copy_1",
                                                     JObj [("en", JStr "A")])])))
                         filled)) = None.
Proof.
  destruct (X11_object_field_breaks_rendering
              (http 200 (Resolves (JObj [("ad_copy_1", JObj [("en", JStr "A")])])))
              filled
              {| status := 200;
                 json_outcome :=
                   Resolves (JObj [("ad_copy_1", JObj [("en", JStr "A")])]) |}
              (JObj [("ad_copy_1", JObj [("en", JStr "A")])])
              "ad_copy_1" [("en", JStr "A")]
              eq_refl eq_refl eq_refl (or_introl eq_refl) eq_refl)
    as (Hdone & _ & _ & _ & Hpage).
  split; assumption.
Defined.
